(** * Property-management backend: a shallow embedding of the request
    handlers and of the e-mail pipeline, with the properties the
    specification states about them.

    Conventions of the embedding.
    - A Python [str] is a [string] whose characters are code points below
      256; [lower] and [split] follow Python on that range.
    - A Python exception is a value of [exception]; a call that may raise
      returns a [result].  [try: ... except Exception as e: raise
      HTTPException(500, prefix + str(e))] is [try_except_500].
    - A relational table is the list of its rows in insertion order;
      [query(...).filter(p).first()] is [List.find p] over the rows.  The
      first use of a mapped class, in a query or by creating an instance,
      configures the mappers from the relationships models.py declares,
      and raises when that fails.
    - An external service (the hosted LLM, the password library, the token
      signer, SMTP, IMAP, the clock, fresh identifiers) is a [Variable] of
      the section that uses it: every theorem holds whatever the service
      answers, an exception included. *)

From Stdlib Require Import String Ascii List Bool Arith NArith ZArith Lia.
From Stdlib Require Import DecimalString.
From Stdlib Require Import Sorting.Permutation.
From Stdlib Require Import Floats.PrimFloat Floats.SpecFloat Floats.FloatAxioms.
Import ListNotations.
Local Open Scope string_scope.
Set Warnings "-inexact-float,-register-all,-notation-for-abbreviation".

(* ===================================================================== *)
(** ** Exceptions and results *)
(* ===================================================================== *)

(** [HTTPException(status_code, detail)] of the web framework, and any
    other exception, kept as its class name and its [str(e)]. *)
Inductive exception : Type :=
| HTTPException (status_code : nat) (detail : string)
| PyException (class_name : string) (message : string).

Definition nat_to_string (n : nat) : string :=
  NilEmpty.string_of_uint (Nat.to_uint n).

(** [str(e)].  The framework prints an [HTTPException] as
    ["<status_code>: <detail>"]. *)
Definition str (e : exception) : string :=
  match e with
  | HTTPException code detail => nat_to_string code ++ ": " ++ detail
  | PyException _ message => message
  end.

Definition status_of (e : exception) : option nat :=
  match e with
  | HTTPException code _ => Some code
  | PyException _ _ => None
  end.

Inductive result (A : Type) : Type :=
| Ok (value : A)
| Raise (e : exception).
Arguments Ok {A} value.
Arguments Raise {A} e.

Definition bind {A B : Type} (r : result A) (k : A -> result B) : result B :=
  match r with
  | Ok a => k a
  | Raise e => Raise e
  end.

Declare Scope py_scope.
Delimit Scope py_scope with py.
Notation "x <- r ;; k" := (bind r (fun x => k))
  (at level 61, r at next level, right associativity) : py_scope.
Notation "r ;;; k" := (bind r (fun _ => k))
  (at level 61, right associativity) : py_scope.
Local Open Scope py_scope.

(** [try: body  except Exception as e: raise HTTPException(500, prefix + str(e))] *)
Definition try_except_500 {A : Type} (prefix : string) (body : result A) : result A :=
  match body with
  | Ok a => Ok a
  | Raise e => Raise (HTTPException 500 (prefix ++ str e))
  end.

Definition is_ok {A : Type} (r : result A) : bool :=
  match r with
  | Ok _ => true
  | Raise _ => false
  end.

(** Code that also changes a store [S] (the database session, the mail
    that left through SMTP): the outcome and the store afterwards.  A
    raised exception keeps the changes made before it. *)
Definition prog (S A : Type) : Type := S -> result A * S.

Definition ret {S A : Type} (a : A) : prog S A := fun s => (Ok a, s).

Definition raise {S A : Type} (e : exception) : prog S A := fun s => (Raise e, s).

Definition lift {S A : Type} (r : result A) : prog S A := fun s => (r, s).

Definition pbind {S A B : Type} (c : prog S A) (k : A -> prog S B) : prog S B :=
  fun s =>
    match c s with
    | (Ok a, s') => k a s'
    | (Raise e, s') => (Raise e, s')
    end.

Notation "x <~ c ;; k" := (pbind c (fun x => k))
  (at level 61, c at next level, right associativity) : py_scope.
Notation "c ;;~ k" := (pbind c (fun _ => k))
  (at level 61, right associativity) : py_scope.

(** [try: body  except Exception as e: handler(e)] *)
Definition try_except {S A : Type} (body : prog S A) (handler : exception -> prog S A)
  : prog S A :=
  fun s =>
    match body s with
    | (Ok a, s') => (Ok a, s')
    | (Raise e, s') => handler e s'
    end.

(* ===================================================================== *)
(** ** Python strings, lists and dicts *)
(* ===================================================================== *)

Module Py.

(** [c.isspace()] for a code point below 256: TAB..CR, FS..US, space,
    NEL (0x85) and NBSP (0xA0). *)
Definition isspace (c : ascii) : bool :=
  let n := N_of_ascii c in
  (((9 <=? n) && (n <=? 13)) || ((28 <=? n) && (n <=? 32))
   || (n =? 133) || (n =? 160))%N.

(** [c.lower()] for a code point below 256: A..Z and the Latin-1 capitals
    0xC0..0xDE other than the multiplication sign 0xD7 move up by 32. *)
Definition lower_char (c : ascii) : ascii :=
  let n := N_of_ascii c in
  if (((65 <=? n) && (n <=? 90))
      || ((192 <=? n) && (n <=? 222) && negb (n =? 215)))%N
  then ascii_of_N (n + 32) else c.

Fixpoint lower (s : string) : string :=
  match s with
  | EmptyString => EmptyString
  | String c s' => String (lower_char c) (lower s')
  end.

(** [s.upper()], used on category names only (ASCII): a..z and the
    Latin-1 small letters whose capital is below 256 move down by 32. *)
Definition upper_char (c : ascii) : ascii :=
  let n := N_of_ascii c in
  if (((97 <=? n) && (n <=? 122))
      || ((224 <=? n) && (n <=? 254) && negb (n =? 247)))%N
  then ascii_of_N (n - 32) else c.

Fixpoint upper (s : string) : string :=
  match s with
  | EmptyString => EmptyString
  | String c s' => String (upper_char c) (upper s')
  end.

(** [s.split()]: the maximal runs of non-whitespace characters, in order.
    [cur] is the word being read. *)
Fixpoint split_from (cur : string) (s : string) : list string :=
  match s with
  | EmptyString => if String.eqb cur "" then [] else [cur]
  | String c s' =>
      if isspace c
      then (if String.eqb cur "" then split_from "" s'
            else cur :: split_from "" s')
      else split_from (cur ++ String c "") s'
  end.

Definition split (s : string) : list string := split_from "" s.

(** [l[0]] *)
Definition item0 {A : Type} (l : list A) : result A :=
  match l with
  | x :: _ => Ok x
  | [] => Raise (PyException "IndexError" "list index out of range")
  end.

(** [sep.join(l)] *)
Fixpoint join (sep : string) (l : list string) : string :=
  match l with
  | [] => ""
  | [x] => x
  | x :: rest => x ++ sep ++ join sep rest
  end.

(** A dict with string keys, as the list of its items in insertion order
    (keys are distinct in every dict literal of the program). *)
Definition dict (V : Type) : Type := list (string * V).

Fixpoint get {V : Type} (d : dict V) (k : string) : option V :=
  match d with
  | [] => None
  | (k', v) :: d' => if String.eqb k' k then Some v else get d' k
  end.

(** [k in d] *)
Definition contains {V : Type} (d : dict V) (k : string) : bool :=
  match get d k with
  | Some _ => true
  | None => false
  end.

(** [d[k]], raising [KeyError] *)
Definition getitem {V : Type} (d : dict V) (k : string) : result V :=
  match get d k with
  | Some v => Ok v
  | None => Raise (PyException "KeyError" ("'" ++ k ++ "'"))
  end.

(** [d.get(k, default)] *)
Definition get_default {V : Type} (d : dict V) (k : string) (default : V) : V :=
  match get d k with
  | Some v => v
  | None => default
  end.

Definition keys {V : Type} (d : dict V) : list string := map fst d.

Definition nl : string := String (ascii_of_nat 10) "".

(** [a > b] and [a < b] on floats. *)
Definition gt (a b : float) : bool := PrimFloat.ltb b a.
Definition lt (a b : float) : bool := PrimFloat.ltb a b.

(** [not s.strip()]: [s] has no character other than whitespace. *)
Fixpoint isblank (s : string) : bool :=
  match s with
  | EmptyString => true
  | String c s' => isspace c && isblank s'
  end.

(** [d[k] = v]: the value of a key that is there is replaced in place, a
    new key goes to the end. *)
Fixpoint setitem {V : Type} (d : dict V) (k : string) (v : V) : dict V :=
  match d with
  | [] => [(k, v)]
  | (k', v') :: d' =>
      if String.eqb k' k then (k', v) :: d' else (k', v') :: setitem d' k v
  end.

(** [dict(pairs)] *)
Definition dict_of {V : Type} (pairs : list (string * V)) : dict V :=
  fold_left (fun d kv => setitem d (fst kv) (snd kv)) pairs [].

(** [x in l] for a list of strings *)
Definition in_list (x : string) (l : list string) : bool :=
  existsb (String.eqb x) l.

(** [max(items, key=lambda x: x[1])] over floats: the first item that no
    later item exceeds.  [best] is the item kept so far. *)
Fixpoint max_from {K : Type} (best : K * float) (items : list (K * float)) : K * float :=
  match items with
  | [] => best
  | item :: rest => max_from (if gt (snd item) (snd best) then item else best) rest
  end.

Definition max_by_value {K : Type} (items : list (K * float)) : result (K * float) :=
  match items with
  | [] => Raise (PyException "ValueError" "max() arg is an empty sequence")
  | item :: rest => Ok (max_from item rest)
  end.

End Py.

(* ===================================================================== *)
(** ** email_classifier.py *)
(* ===================================================================== *)

Module email_classifier.

Record EmailCategory : Type := mkEmailCategory {
  category : string;
  confidence : float;
  department : string;
  priority : string
}.

Definition CATEGORIES : Py.dict (Py.dict string) :=
  [ ("complaint",
      [ ("department", "Customer Service");
        ("priority", "high");
        ("description", "Customer complaints and dissatisfaction") ]);
    ("rent_issue",
      [ ("department", "Finance");
        ("priority", "high");
        ("description", "Rent payment issues and queries") ]);
    ("service_request",
      [ ("department", "Maintenance");
        ("priority", "medium");
        ("description", "Maintenance and repair requests") ]);
    ("general_inquiry",
      [ ("department", "General Support");
        ("priority", "low");
        ("description", "General questions and information requests") ]) ].

(** The arguments of one chat-completion call. *)
Record chat_request : Type := mkChatRequest {
  model : string;
  system_content : string;
  user_content : string;
  temperature : float;
  max_tokens : nat
}.

Definition classification_prompt (email_content : string) : string :=
  "Classify the following email into one of these categories: "
    ++ Py.join ", " (Py.keys CATEGORIES) ++ Py.nl
    ++ "            Email content: " ++ email_content ++ Py.nl
    ++ "            Provide the classification in JSON format with category, confidence score (0-1), and explanation.".

Definition classification_request (email_content : string) : chat_request :=
  {| model := "gpt-4";
     system_content := "You are an email classification expert.";
     user_content := classification_prompt email_content;
     temperature := 0.3%float;
     max_tokens := 150 |}.

Section Classifier.

(** The hosted LLM: [openai.ChatCompletion.acreate(...)] followed by
    [response.choices[0].message.content], either the reply text or the
    exception the call raised. *)
Variable acreate : chat_request -> result string.

(** The body of the [try] block of [classify_email]. *)
Definition classify_email_body (email_content : string) : result EmailCategory :=
  classification <- acreate (classification_request email_content) ;;
  category0 <- Py.item0 (Py.split (Py.lower classification)) ;;
  let confidence := 0.8%float in
  let category :=
    if negb (Py.contains CATEGORIES category0) then "general_inquiry"
    else category0 in
  entry <- Py.getitem CATEGORIES category ;;
  department <- Py.getitem entry "department" ;;
  entry' <- Py.getitem CATEGORIES category ;;
  priority <- Py.getitem entry' "priority" ;;
  Ok (mkEmailCategory category confidence department priority).

Definition classify_email (email_content : string) : result EmailCategory :=
  try_except_500 "Error classifying email: " (classify_email_body email_content).

End Classifier.

Definition get_department_email (category : string) : string :=
  let department_emails : Py.dict string :=
    [ ("complaint", "customer-service@propertypro.com");
      ("rent_issue", "finance@propertypro.com");
      ("service_request", "maintenance@propertypro.com");
      ("general_inquiry", "support@propertypro.com") ] in
  Py.get_default department_emails category "support@propertypro.com".

Definition should_escalate (category : EmailCategory) : bool :=
  (String.eqb (priority category) "high" && Py.gt (confidence category) 0.7%float)
  || Py.lt (confidence category) 0.5%float.

(** The first whitespace-separated word of the lowercased reply, when the
    reply has one. *)
Definition first_word (reply : string) : option string :=
  match Py.split (Py.lower reply) with
  | w :: _ => Some w
  | [] => None
  end.

Definition is_fixed_category (w : string) : bool :=
  String.eqb w "complaint" || String.eqb w "rent_issue"
  || String.eqb w "service_request" || String.eqb w "general_inquiry".

Definition category_of_word (w : string) : string :=
  if is_fixed_category w then w else "general_inquiry".

(** The table entry of a category name, as the record the classifier builds. *)
Definition table_category (c : string) : result EmailCategory :=
  entry <- Py.getitem CATEGORIES c ;;
  department <- Py.getitem entry "department" ;;
  entry' <- Py.getitem CATEGORIES c ;;
  priority <- Py.getitem entry' "priority" ;;
  Ok (mkEmailCategory c 0.8%float department priority).

End email_classifier.

(* ===================================================================== *)
(** ** models.py and schemas.py *)
(* ===================================================================== *)

(** A [DateTime] value, as a number of seconds. *)
Definition datetime : Type := nat.

Module models.

Record User : Type := mkUser {
  User_id : string;
  User_email : string;
  User_hashed_password : string;
  User_full_name : string;
  User_role : string;
  User_is_active : bool;
  User_created_at : datetime;
  User_updated_at : option datetime
}.

Record Property : Type := mkProperty {
  Property_id : nat;
  Property_address : string;
  Property_property_type : string;
  Property_size : float;
  Property_bedrooms : Z;
  Property_bathrooms : Z;
  Property_rent_amount : float;
  Property_status : string;
  Property_created_at : datetime
}.

(** [user_id] holds what the handler stores there, [current_user.id]. *)
Record MaintenanceTicket : Type := mkMaintenanceTicket {
  MaintenanceTicket_id : nat;
  MaintenanceTicket_title : string;
  MaintenanceTicket_description : string;
  MaintenanceTicket_status : string;
  MaintenanceTicket_priority : string;
  MaintenanceTicket_created_at : datetime;
  MaintenanceTicket_updated_at : datetime;
  MaintenanceTicket_user_id : string;
  MaintenanceTicket_property_id : Z
}.

(** [qube_case_id] is the column qube_integration.py reads and writes;
    [status] is nullable and the webhook may store a JSON null there. *)
Record Ticket : Type := mkTicket {
  Ticket_id : string;
  Ticket_title : string;
  Ticket_description : string;
  Ticket_category : string;
  Ticket_priority : string;
  Ticket_status : option string;
  Ticket_ai_response : option string;
  Ticket_staff_response : option string;
  Ticket_user_id : string;
  Ticket_created_at : datetime;
  Ticket_updated_at : option datetime;
  Ticket_qube_case_id : option string
}.

(** The relational store: each table as its rows in insertion order. *)
Record database : Type := mkDatabase {
  users : list User;
  properties : list Property;
  maintenance_tickets : list MaintenanceTicket;
  tickets : list Ticket
}.

(** *** Mapper configuration

    The first use of a mapped class in a process -- a [db.query(...)] or
    the creation of an instance -- makes SQLAlchemy configure the mappers
    of all the classes declared on [Base].  Each [relationship] that names
    a [back_populates] is then checked against the relationship it names
    on the other class. *)

Inductive mapped_class : Type :=
| class_User
| class_Property
| class_MaintenanceTicket
| class_Ticket.

Definition class_name (c : mapped_class) : string :=
  match c with
  | class_User => "User"
  | class_Property => "Property"
  | class_MaintenanceTicket => "MaintenanceTicket"
  | class_Ticket => "Ticket"
  end.

Definition tablename (c : mapped_class) : string :=
  match c with
  | class_User => "users"
  | class_Property => "properties"
  | class_MaintenanceTicket => "maintenance_tickets"
  | class_Ticket => "tickets"
  end.

Definition mapped_class_eqb (a b : mapped_class) : bool :=
  String.eqb (class_name a) (class_name b).

(** [rel_key = relationship(rel_argument, back_populates=rel_back_populates)]
    in the body of the class [rel_parent]. *)
Record relationship : Type := mkRelationship {
  rel_parent : mapped_class;
  rel_key : string;
  rel_argument : mapped_class;
  rel_back_populates : string
}.

(** The relationships of models.py, in the order of the file. *)
Definition relationships : list relationship :=
  [ mkRelationship class_User "tickets" class_Ticket "user";
    mkRelationship class_Property "tickets" class_MaintenanceTicket "property";
    mkRelationship class_MaintenanceTicket "user" class_User "tickets";
    mkRelationship class_MaintenanceTicket "property" class_Property "tickets";
    mkRelationship class_Ticket "user" class_User "tickets" ].

Definition ArgumentError (message : string) : exception :=
  PyException "ArgumentError" message.

Definition InvalidRequestError (message : string) : exception :=
  PyException "InvalidRequestError" message.

Definition mapper_name (c : mapped_class) : string :=
  "Mapper[" ++ class_name c ++ "(" ++ tablename c ++ ")]".

Definition relationship_name (r : relationship) : string :=
  class_name (rel_parent r) ++ "." ++ rel_key r.

(** [mapper.get_property(key)] on the mapper of the class [c]. *)
Definition get_property (declared : list relationship) (c : mapped_class)
    (key : string) : option relationship :=
  find (fun r => mapped_class_eqb (rel_parent r) c && String.eqb (rel_key r) key)
       declared.

(** The check of [back_populates]: the relationship it names on the
    target class must point back at the class that declares [r]. *)
Definition add_reverse_property (declared : list relationship) (r : relationship)
  : result unit :=
  match get_property declared (rel_argument r) (rel_back_populates r) with
  | None =>
      Raise (InvalidRequestError
               ("Mapper '" ++ mapper_name (rel_argument r) ++ "' has no property '"
                  ++ rel_back_populates r ++ "'"))
  | Some other =>
      if mapped_class_eqb (rel_argument other) (rel_parent r) then Ok tt
      else
        Raise (ArgumentError
                 ("reverse_property '" ++ rel_back_populates r ++ "' on relationship "
                    ++ relationship_name r ++ " references relationship "
                    ++ relationship_name other ++ ", which does not reference mapper "
                    ++ mapper_name (rel_parent r)))
  end.

(** The relationships are set up in the order they were declared; the
    first that fails ends the configuration. *)
Fixpoint init_relationships (declared todo : list relationship) : result unit :=
  match todo with
  | [] => Ok tt
  | r :: rest =>
      add_reverse_property declared r ;;;
      init_relationships declared rest
  end.

(** What an earlier use of the ORM left in the running process: nothing,
    or the mapper whose configuration failed and the exception it failed
    with ([Mapper._configure_failed]). *)
Definition registry : Type := option (mapped_class * exception).

(** [configure_mappers()].  After a failure the ORM does not try again:
    it raises [InvalidRequestError] with the text of the first failure. *)
Definition configure_mappers (failed : registry) : result unit :=
  match failed with
  | Some (mapper, original) =>
      Raise (InvalidRequestError
               ("One or more mappers failed to initialize - can't proceed with "
                  ++ "initialization of other mappers. Triggering mapper: '"
                  ++ mapper_name mapper ++ "'. Original exception was: "
                  ++ str original))
  | None => init_relationships relationships relationships
  end.

(** *** Queries and inserts *)

(** [db.query(cls)...all()]: the rows of the table of a mapped class. *)
Definition query {A : Type} (failed : registry) (table : database -> list A)
  : prog database (list A) :=
  lift (configure_mappers failed) ;;~
  fun db => (Ok (table db), db).

(** [db.query(User).filter(User.email == email).first()] *)
Definition user_with_email (failed : registry) (email : string)
  : prog database (option User) :=
  rows <~ query failed users ;;
  ret (find (fun u => String.eqb (User_email u) email) rows).

Definition IntegrityError (constraint : string) : exception :=
  PyException "IntegrityError" ("UNIQUE constraint failed: " ++ constraint).

Definition email_taken (email : string) (rows : list User) : bool :=
  existsb (fun u => String.eqb (User_email u) email) rows.

Definition user_id_taken (id : string) (rows : list User) : bool :=
  existsb (fun u => String.eqb (User_id u) id) rows.

(** [u = User(...); db.add(u); db.commit()]: creating the instance
    configures the mappers; in [users], [id] is the primary key and
    [email] is declared [unique=True]. *)
Definition insert_user (failed : registry) (u : User) : prog database unit :=
  lift (configure_mappers failed) ;;~
  fun db =>
    if user_id_taken (User_id u) (users db)
    then (Raise (IntegrityError "users.id"), db)
    else if email_taken (User_email u) (users db)
    then (Raise (IntegrityError "users.email"), db)
    else (Ok tt, mkDatabase (users db ++ [u]) (properties db)
                            (maintenance_tickets db) (tickets db)).

(** The key an [Integer] primary key column gets on insert: one more than
    the largest key in the table. *)
Definition next_key {A : Type} (key : A -> nat) (rows : list A) : nat :=
  S (fold_right (fun r m => Nat.max (key r) m) 0 rows).

(** [p = Property(...); db.add(p); db.commit()] *)
Definition insert_property (failed : registry) (p : Property) : prog database unit :=
  lift (configure_mappers failed) ;;~
  fun db => (Ok tt, mkDatabase (users db) (properties db ++ [p])
                               (maintenance_tickets db) (tickets db)).

(** [t = MaintenanceTicket(...); db.add(t); db.commit()] *)
Definition insert_maintenance_ticket (failed : registry) (t : MaintenanceTicket)
  : prog database unit :=
  lift (configure_mappers failed) ;;~
  fun db => (Ok tt, mkDatabase (users db) (properties db)
                               (maintenance_tickets db ++ [t]) (tickets db)).

Definition ticket_id_taken (id : string) (rows : list Ticket) : bool :=
  existsb (fun t => String.eqb (Ticket_id t) id) rows.

(** [t = Ticket(...); db.add(t); db.commit()] *)
Definition insert_ticket (failed : registry) (t : Ticket) : prog database unit :=
  lift (configure_mappers failed) ;;~
  fun db =>
    if ticket_id_taken (Ticket_id t) (tickets db)
    then (Raise (IntegrityError "tickets.id"), db)
    else (Ok tt, mkDatabase (users db) (properties db)
                            (maintenance_tickets db) (tickets db ++ [t])).

(** [db.commit()] after attributes of the loaded row [t] were assigned:
    UPDATE ... WHERE id = [Ticket_id t]. *)
Definition update_ticket (t : Ticket) : prog database unit :=
  fun db =>
    (Ok tt,
     mkDatabase (users db) (properties db) (maintenance_tickets db)
       (map (fun r => if String.eqb (Ticket_id r) (Ticket_id t) then t else r)
            (tickets db))).

End models.

Module schemas.

Record UserCreate : Type := mkUserCreate {
  UserCreate_email : string;
  UserCreate_full_name : string;
  UserCreate_role : string;
  UserCreate_password : string
}.

Record UserLogin : Type := mkUserLogin {
  UserLogin_email : string;
  UserLogin_password : string
}.

Record PropertyCreate : Type := mkPropertyCreate {
  address : string;
  property_type : string;
  size : float;
  bedrooms : Z;
  bathrooms : Z;
  rent_amount : float;
  status : string
}.

Record MaintenanceTicketCreate : Type := mkMaintenanceTicketCreate {
  title : string;
  description : string;
  priority : string;
  property_id : Z
}.

End schemas.

(* ===================================================================== *)
(** ** main.py *)
(* ===================================================================== *)

Module main.
Import models.

(** The error of a refused [login]; its [WWW-Authenticate] header is not
    kept. *)
Definition unauthorized : exception := HTTPException 401 "Incorrect email or password".

Section Handlers.

(** What an earlier use of the ORM left in the process. *)
Variable configure_failed : registry.
(** [schemas.verify_password] and [schemas.get_password_hash]: the
    password library, which raises on a hash or a password it refuses. *)
Variable verify_password : string -> string -> result bool.
Variable get_password_hash : string -> result string.
(** [auth.create_access_token(data=...)]: the token signer. *)
Variable create_access_token : Py.dict string -> result string.

(** [register_user]; [new_id] is the uuid drawn for the row and [now] the
    server time of the insert. *)
Definition register_user (new_id : string) (now : datetime) (user : schemas.UserCreate)
  : prog database User :=
  db_user <~ user_with_email configure_failed (schemas.UserCreate_email user) ;;
  match db_user with
  | Some _ => raise (HTTPException 400 "Email already registered")
  | None =>
      hashed_password <~ lift (get_password_hash (schemas.UserCreate_password user)) ;;
      let new_user :=
        {| User_id := new_id;
           User_email := schemas.UserCreate_email user;
           User_hashed_password := hashed_password;
           User_full_name := schemas.UserCreate_full_name user;
           User_role := schemas.UserCreate_role user;
           User_is_active := true;
           User_created_at := now;
           User_updated_at := None |} in
      insert_user configure_failed new_user ;;~
      ret new_user
  end.

(** [login] *)
Definition login (user_credentials : schemas.UserLogin)
  : prog database (Py.dict string) :=
  user <~ user_with_email configure_failed (schemas.UserLogin_email user_credentials) ;;
  match user with
  | None => raise unauthorized
  | Some user =>
      verified <~ lift (verify_password (schemas.UserLogin_password user_credentials)
                          (User_hashed_password user)) ;;
      if negb verified then raise unauthorized
      else
        access_token <~ lift (create_access_token [("sub", User_email user)]) ;;
        ret [("access_token", access_token); ("token_type", "bearer")]
  end.

(** [get_properties]: [offset(skip).limit(limit)] over the table, for
    [skip] and [limit] that are not negative. *)
Definition get_properties (skip limit : nat) (current_user : User)
  : prog database (list Property) :=
  rows <~ query configure_failed properties ;;
  let properties := firstn limit (skipn skip rows) in
  ret properties.

(** [create_property]; [now] is the clock read by the [created_at] default. *)
Definition create_property (now : datetime) (property : schemas.PropertyCreate)
    (current_user : User) : prog database Property :=
  if negb (String.eqb (User_role current_user) "admin")
  then raise (HTTPException 403 "Not authorized to create properties")
  else
    fun db =>
      let db_property :=
        {| Property_id := next_key Property_id (properties db);
           Property_address := schemas.address property;
           Property_property_type := schemas.property_type property;
           Property_size := schemas.size property;
           Property_bedrooms := schemas.bedrooms property;
           Property_bathrooms := schemas.bathrooms property;
           Property_rent_amount := schemas.rent_amount property;
           Property_status := schemas.status property;
           Property_created_at := now |} in
      (insert_property configure_failed db_property ;;~ ret db_property) db.

(** [create_ticket] of the maintenance-ticket endpoint. *)
Definition create_ticket (now : datetime) (ticket : schemas.MaintenanceTicketCreate)
    (current_user : User) : prog database MaintenanceTicket :=
  fun db =>
    let db_ticket :=
      {| MaintenanceTicket_id := next_key MaintenanceTicket_id (maintenance_tickets db);
         MaintenanceTicket_title := schemas.title ticket;
         MaintenanceTicket_description := schemas.description ticket;
         MaintenanceTicket_status := "pending";
         MaintenanceTicket_priority := schemas.priority ticket;
         MaintenanceTicket_created_at := now;
         MaintenanceTicket_updated_at := now;
         MaintenanceTicket_user_id := User_id current_user;
         MaintenanceTicket_property_id := schemas.property_id ticket |} in
    (insert_maintenance_ticket configure_failed db_ticket ;;~ ret db_ticket) db.

(** [get_tickets] of the maintenance-ticket endpoint. *)
Definition get_tickets (current_user : User) : prog database (list MaintenanceTicket) :=
  if String.eqb (User_role current_user) "admin"
  then query configure_failed maintenance_tickets
  else
    rows <~ query configure_failed maintenance_tickets ;;
    ret (filter (fun t => String.eqb (MaintenanceTicket_user_id t) (User_id current_user))
                rows).

(** [get_admin_stats] *)
Definition get_admin_stats (current_user : User) : prog database (Py.dict nat) :=
  if negb (String.eqb (User_role current_user) "admin")
  then raise (HTTPException 403 "Not authorized to access admin stats")
  else
    all_properties <~ query configure_failed properties ;;
    let total_properties := length all_properties in
    all_users <~ query configure_failed users ;;
    let total_tenants :=
      length (filter (fun u => String.eqb (User_role u) "tenant") all_users) in
    all_tickets <~ query configure_failed maintenance_tickets ;;
    let pending_tickets :=
      length (filter (fun t => String.eqb (MaintenanceTicket_status t) "pending")
                     all_tickets) in
    ret [("total_properties", total_properties);
         ("total_tenants", total_tenants);
         ("pending_tickets", pending_tickets)].

(** The LLM behind [chat]. *)
Variable acreate : email_classifier.chat_request -> result string.

Definition chat_prompt (message : string) : string :=
  "You are a helpful property management assistant. " ++ Py.nl
    ++ "        Answer the following question about property management, maintenance, or tenant services: "
    ++ message ++ Py.nl
    ++ "        Keep the response concise and informative.".

Definition chat_body (message : string) : result (Py.dict string) :=
  content <- acreate
    {| email_classifier.model := "gpt-4";
       email_classifier.system_content := "You are a helpful property management assistant.";
       email_classifier.user_content := chat_prompt message;
       email_classifier.temperature := 0.7%float;
       email_classifier.max_tokens := 150 |} ;;
  Ok [("response", content)].

Definition chat (message : string) : result (Py.dict string) :=
  try_except_500 "Error processing chat request: " (chat_body message).

End Handlers.

End main.

(* ===================================================================== *)
(** ** ticket_system.py *)
(* ===================================================================== *)

Module ticket_system.
Import models.

Record TicketCreate : Type := mkTicketCreate {
  title : string;
  description : string;
  category : string;
  priority : string
}.

(** [db.rollback()]: the store holds committed rows only, and every change
    of the handlers is committed at once, so nothing is pending. *)
Definition rollback : prog database unit := ret tt.

Section Handlers.

(** What an earlier use of the ORM left in the process. *)
Variable configure_failed : registry.
(** The [try] block of [generate_ai_response] for a ticket and the
    [tickets] table it reads the user's history from: the policy search,
    the prompt and the LLM call, as the reply text or the exception one of
    them raised. *)
Variable ai_response_body : Ticket -> list Ticket -> result string.

Definition generate_ai_response (ticket : Ticket) : prog database string :=
  fun db =>
    match ai_response_body ticket (tickets db) with
    | Ok content => (Ok content, db)
    | Raise _ => (Ok "Thank you for your ticket. Our team will review it shortly.", db)
    end.

(** The [try] block of [create_ticket]; [new_id] is the uuid drawn for the
    row, [now] the server time of the insert and [now'] of the update. *)
Definition create_ticket_body (new_id : string) (now now' : datetime)
    (ticket : TicketCreate) (current_user : User) : prog database Ticket :=
  let db_ticket :=
    {| Ticket_id := new_id;
       Ticket_title := title ticket;
       Ticket_description := description ticket;
       Ticket_category := category ticket;
       Ticket_priority := priority ticket;
       Ticket_status := Some "open";
       Ticket_ai_response := None;
       Ticket_staff_response := None;
       Ticket_user_id := User_id current_user;
       Ticket_created_at := now;
       Ticket_updated_at := None;
       Ticket_qube_case_id := None |} in
  insert_ticket configure_failed db_ticket ;;~
  ai_response <~ generate_ai_response db_ticket ;;
  let db_ticket' :=
    {| Ticket_id := Ticket_id db_ticket;
       Ticket_title := Ticket_title db_ticket;
       Ticket_description := Ticket_description db_ticket;
       Ticket_category := Ticket_category db_ticket;
       Ticket_priority := Ticket_priority db_ticket;
       Ticket_status := Ticket_status db_ticket;
       Ticket_ai_response := Some ai_response;
       Ticket_staff_response := Ticket_staff_response db_ticket;
       Ticket_user_id := Ticket_user_id db_ticket;
       Ticket_created_at := Ticket_created_at db_ticket;
       Ticket_updated_at := Some now';
       Ticket_qube_case_id := Ticket_qube_case_id db_ticket |} in
  update_ticket db_ticket' ;;~
  ret db_ticket'.

Definition create_ticket (new_id : string) (now now' : datetime)
    (ticket : TicketCreate) (current_user : User) : prog database Ticket :=
  try_except (create_ticket_body new_id now now' ticket current_user)
    (fun e => rollback ;;~ raise (HTTPException 500 (str e))).

(** The [try] block of [get_ticket]. *)
Definition get_ticket_body (ticket_id : string) (current_user : User)
  : prog database Ticket :=
  rows <~ query configure_failed tickets ;;
  let ticket :=
    find (fun t => String.eqb (Ticket_id t) ticket_id
                   && String.eqb (Ticket_user_id t) (User_id current_user))
         rows in
  match ticket with
  | None => raise (HTTPException 404 "Ticket not found")
  | Some ticket => ret ticket
  end.

Definition get_ticket (ticket_id : string) (current_user : User)
  : prog database Ticket :=
  try_except (get_ticket_body ticket_id current_user)
    (fun e => raise (HTTPException 500 (str e))).

(** [ORDER BY created_at DESC]: newest first.  Rows of the same time are
    kept in the order of the table; the database leaves their order open. *)
Fixpoint insert_by_created_at (t : Ticket) (sorted : list Ticket) : list Ticket :=
  match sorted with
  | [] => [t]
  | r :: rest =>
      if (Ticket_created_at r <=? Ticket_created_at t)%nat then t :: sorted
      else r :: insert_by_created_at t rest
  end.

Definition order_by_created_at_desc (rows : list Ticket) : list Ticket :=
  fold_right insert_by_created_at [] rows.

(** The [try] block of [get_tickets]. *)
Definition get_tickets_body (current_user : User) : prog database (list Ticket) :=
  rows <~ query configure_failed tickets ;;
  let tickets :=
    order_by_created_at_desc
      (filter (fun t => String.eqb (Ticket_user_id t) (User_id current_user)) rows) in
  ret tickets.

Definition get_tickets (current_user : User) : prog database (list Ticket) :=
  try_except (get_tickets_body current_user)
    (fun e => raise (HTTPException 500 (str e))).

End Handlers.

End ticket_system.

(* ===================================================================== *)
(** ** qube_integration.py *)
(* ===================================================================== *)

Module qube_integration.
Import models.

(** A parsed JSON document; an object is the dict it parses to. *)
Inductive json : Type :=
| JNull
| JBool (b : bool)
| JNumber (n : Z)
| JString (s : string)
| JArray (items : list json)
| JObject (fields : Py.dict json).

Definition TypeError (message : string) : exception := PyException "TypeError" message.

Definition AttributeError (message : string) : exception :=
  PyException "AttributeError" message.

(** [j.get(k)] *)
Definition json_get (j : json) (k : string) : result json :=
  match j with
  | JObject fields => Ok (Py.get_default fields k JNull)
  | JNull => Raise (AttributeError "'NoneType' object has no attribute 'get'")
  | JBool _ => Raise (AttributeError "'bool' object has no attribute 'get'")
  | JNumber _ => Raise (AttributeError "'int' object has no attribute 'get'")
  | JString _ => Raise (AttributeError "'str' object has no attribute 'get'")
  | JArray _ => Raise (AttributeError "'list' object has no attribute 'get'")
  end.

(** [j[k]] for a string key [k] *)
Definition json_getitem (j : json) (k : string) : result json :=
  match j with
  | JObject fields => Py.getitem fields k
  | JNull => Raise (TypeError "'NoneType' object is not subscriptable")
  | JBool _ => Raise (TypeError "'bool' object is not subscriptable")
  | JNumber _ => Raise (TypeError "'int' object is not subscriptable")
  | JString _ => Raise (TypeError "string indices must be integers")
  | JArray _ => Raise (TypeError "list indices must be integers or slices, not str")
  end.

(** [j == s] for a string literal [s] *)
Definition json_eq_str (j : json) (s : string) : bool :=
  match j with
  | JString s' => String.eqb s' s
  | _ => false
  end.

(** The value a nullable [String] column takes or is compared with: a
    JSON string as its text, null as NULL; the typed column refuses every
    other value. *)
Definition as_text (j : json) : result (option string) :=
  match j with
  | JString s => Ok (Some s)
  | JNull => Ok None
  | _ => Raise (PyException "StatementError" "value is not a string")
  end.

Definition option_string_eqb (a b : option string) : bool :=
  match a, b with
  | Some x, Some y => String.eqb x y
  | None, None => true
  | _, _ => false
  end.

(** What the handler reads of a request: the [X-Qube-Signature] header
    and the outcome of [request.json()]. *)
Record Request : Type := mkRequest {
  X_Qube_Signature : option string;
  request_json : result json
}.

Section Webhook.

(** [os.getenv("QUBE_WEBHOOK_SECRET")] *)
Variable QUBE_WEBHOOK_SECRET : option string.
(** [jwt.encode(payload, key, algorithm="HS256")] *)
Variable jwt_encode : json -> option string -> result string.
(** Whether the mapped class [Ticket] has the attribute [qube_case_id]
    (models.py declares no such column; the handler needs it). *)
Variable Ticket_has_qube_case_id : bool.
(** What an earlier use of the ORM left in the process. *)
Variable configure_failed : registry.

Definition Ticket_qube_case_id_column : result unit :=
  if Ticket_has_qube_case_id then Ok tt
  else Raise (AttributeError "type object 'Ticket' has no attribute 'qube_case_id'").

(** [ticket] after [ticket.status = ...] and [ticket.updated_at = now]. *)
Definition with_status (ticket : Ticket) (status : option string) (now : datetime) : Ticket :=
  {| Ticket_id := Ticket_id ticket;
     Ticket_title := Ticket_title ticket;
     Ticket_description := Ticket_description ticket;
     Ticket_category := Ticket_category ticket;
     Ticket_priority := Ticket_priority ticket;
     Ticket_status := status;
     Ticket_ai_response := Ticket_ai_response ticket;
     Ticket_staff_response := Ticket_staff_response ticket;
     Ticket_user_id := Ticket_user_id ticket;
     Ticket_created_at := Ticket_created_at ticket;
     Ticket_updated_at := Some now;
     Ticket_qube_case_id := Ticket_qube_case_id ticket |}.

(** The [if event_type == "case.updated":] block. *)
Definition update_local_ticket (now : datetime) (case_data : json) : prog database unit :=
  lift (configure_mappers configure_failed) ;;~
  lift Ticket_qube_case_id_column ;;~
  case_id <~ lift (json_getitem case_data "case_id") ;;
  key <~ lift (as_text case_id) ;;
  fun db =>
    let ticket :=
      find (fun t => option_string_eqb (Ticket_qube_case_id t) key) (tickets db) in
    match ticket with
    | Some ticket =>
        (status <~ lift (json_getitem case_data "status") ;;
         status_text <~ lift (as_text status) ;;
         update_ticket (with_status ticket status_text now)) db
    | None => (Ok tt, db)
    end.

(** The [try] block of [qube_webhook]; [now] is [datetime.utcnow()]. *)
Definition qube_webhook_body (now : datetime) (request : Request)
  : prog database (Py.dict string) :=
  let signature := X_Qube_Signature request in
  match signature with
  | None => raise (HTTPException 401 "Missing signature")
  | Some signature =>
      if String.eqb signature "" then raise (HTTPException 401 "Missing signature")
      else
        payload <~ lift (request_json request) ;;
        expected_signature <~ lift (jwt_encode payload QUBE_WEBHOOK_SECRET) ;;
        if negb (String.eqb signature expected_signature)
        then raise (HTTPException 401 "Invalid signature")
        else
          event_type <~ lift (json_get payload "event_type") ;;
          case_data <~ lift (json_get payload "case") ;;
          (if json_eq_str event_type "case.updated"
           then update_local_ticket now case_data
           else ret tt) ;;~
          ret [("status", "success")]
  end.

Definition qube_webhook (now : datetime) (request : Request)
  : prog database (Py.dict string) :=
  try_except (qube_webhook_body now request)
    (fun e => raise (HTTPException 500 (str e))).

(** The request carries a non-empty signature header equal to the
    signature recomputed over its payload. *)
Definition signature_verifies (request : Request) : bool :=
  match X_Qube_Signature request, request_json request with
  | Some signature, Ok payload =>
      match jwt_encode payload QUBE_WEBHOOK_SECRET with
      | Ok expected_signature =>
          negb (String.eqb signature "") && String.eqb signature expected_signature
      | Raise _ => false
      end
  | _, _ => false
  end.

(** The payload's [event_type] is the string ["case.updated"]. *)
Definition is_case_updated (request : Request) : bool :=
  match request_json request with
  | Ok (JObject fields) => json_eq_str (Py.get_default fields "event_type" JNull) "case.updated"
  | _ => false
  end.

End Webhook.

(** The error [sync_ticket_to_qube] makes of what was raised inside it. *)
Definition sync_error (e : exception) : exception :=
  HTTPException 500 ("Failed to sync ticket with Qube: " ++ str e).

(** One call through [httpx.AsyncClient]: the method, the URL, the
    [Authorization] header, the [params] and the [json] body ([JNull]
    when the call gives none). *)
Record http_request : Type := mkHttpRequest {
  http_method : string;
  http_url : string;
  http_authorization : option string;
  http_params : Py.dict json;
  http_json : json
}.



Definition json_of_option (v : option string) : json :=
  match v with
  | Some s => JString s
  | None => JNull
  end.

(** [if v:] for an optional string: set and not empty. *)
Definition truthy (v : option string) : bool :=
  match v with
  | Some s => negb (String.eqb s "")
  | None => false
  end.

Definition Ticket_eqb (a b : Ticket) : bool :=
  String.eqb (Ticket_id a) (Ticket_id b)
  && String.eqb (Ticket_title a) (Ticket_title b)
  && String.eqb (Ticket_description a) (Ticket_description b)
  && String.eqb (Ticket_category a) (Ticket_category b)
  && String.eqb (Ticket_priority a) (Ticket_priority b)
  && option_string_eqb (Ticket_status a) (Ticket_status b)
  && option_string_eqb (Ticket_ai_response a) (Ticket_ai_response b)
  && option_string_eqb (Ticket_staff_response a) (Ticket_staff_response b)
  && String.eqb (Ticket_user_id a) (Ticket_user_id b)
  && Nat.eqb (Ticket_created_at a) (Ticket_created_at b)
  && option_string_eqb (Ticket_qube_case_id a) (Ticket_qube_case_id b).

Definition with_fields (ticket : Ticket) (status : option string) (priority : string)
    (qube_case_id : option string) (updated_at : option datetime) : Ticket :=
  {| Ticket_id := Ticket_id ticket;
     Ticket_title := Ticket_title ticket;
     Ticket_description := Ticket_description ticket;
     Ticket_category := Ticket_category ticket;
     Ticket_priority := priority;
     Ticket_status := status;
     Ticket_ai_response := Ticket_ai_response ticket;
     Ticket_staff_response := Ticket_staff_response ticket;
     Ticket_user_id := Ticket_user_id ticket;
     Ticket_created_at := Ticket_created_at ticket;
     Ticket_updated_at := updated_at;
     Ticket_qube_case_id := qube_case_id |}.

(** [db.commit()] with the loaded row [ticket] holding assigned
    attributes: the row of that id is written, and gets the time of the
    update, when a column differs from what is stored. *)
Definition commit_ticket (now : datetime) (ticket : Ticket) : prog database unit :=
  fun db =>
    (Ok tt,
     mkDatabase (users db) (properties db) (maintenance_tickets db)
       (map (fun r =>
               if String.eqb (Ticket_id r) (Ticket_id ticket)
               then (if Ticket_eqb r ticket then r
                     else with_fields ticket (Ticket_status ticket)
                            (Ticket_priority ticket) (Ticket_qube_case_id ticket)
                            (Some now))
               else r)
            (tickets db))).

Section Sync.

(** [os.getenv] of the Qube settings. *)
Variable QUBE_API_URL : string.
Variable QUBE_CLIENT_ID : option string.
Variable QUBE_CLIENT_SECRET : option string.
(** The request as sent, [raise_for_status()] and [response.json()]. *)
Variable httpx : http_request -> result json.
(** How an f-string prints a JSON value that is not a string. *)
Variable format_json : json -> string.
Variable isoformat : datetime -> string.
Variable Ticket_has_qube_case_id : bool.
(** The time of the update a commit for the ticket of a given id makes. *)
Variable commit_time : string -> datetime.
(** What an earlier use of the ORM left in the process. *)
Variable configure_failed : registry.
(** The attribute [Property.owner_id], which [get_qube_cases] filters on;
    models.py declares none. *)
Variable Property_owner_id : option (Property -> string).

Definition format_value (v : json) : string :=
  match v with
  | JString s => s
  | _ => format_json v
  end.

(** The [try] block of [get_qube_token]. *)
Definition get_qube_token_body : result json :=
  response <- httpx
    {| http_method := "POST";
       http_url := QUBE_API_URL ++ "/auth/token";
       http_authorization := None;
       http_params := [];
       http_json :=
         JObject [ ("client_id", json_of_option QUBE_CLIENT_ID);
                   ("client_secret", json_of_option QUBE_CLIENT_SECRET);
                   ("grant_type", JString "client_credentials") ] |} ;;
  json_getitem response "access_token".

Definition get_qube_token : result json :=
  try_except_500 "Failed to get Qube token: " get_qube_token_body.

Definition case_data (ticket : Ticket) : json :=
  JObject
    [ ("title", JString (Ticket_title ticket));
      ("description", JString (Ticket_description ticket));
      ("status", json_of_option (Ticket_status ticket));
      ("priority", JString (Ticket_priority ticket));
      ("category", JString (Ticket_category ticket));
      ("tenant_id", JString (Ticket_user_id ticket));
      ("property_id", JNull);
      ("metadata",
        JObject
          [ ("internal_ticket_id", JString (Ticket_id ticket));
            ("created_at", JString (isoformat (Ticket_created_at ticket)));
            ("updated_at",
              match Ticket_updated_at ticket with
              | Some t => JString (isoformat t)
              | None => JNull
              end) ]) ].

(** [hasattr(ticket, 'qube_case_id') and ticket.qube_case_id] *)
Definition existing_case (ticket : Ticket) : option string :=
  if Ticket_has_qube_case_id && truthy (Ticket_qube_case_id ticket)
  then Ticket_qube_case_id ticket else None.

(** The request [sync_ticket_to_qube] sends for a ticket. *)
Definition sync_request (token : json) (ticket : Ticket) : http_request :=
  match existing_case ticket with
  | Some case_id =>
      {| http_method := "PUT";
         http_url := QUBE_API_URL ++ "/cases/" ++ case_id;
         http_authorization := Some ("Bearer " ++ format_value token);
         http_params := [];
         http_json := case_data ticket |}
  | None =>
      {| http_method := "POST";
         http_url := QUBE_API_URL ++ "/cases";
         http_authorization := Some ("Bearer " ++ format_value token);
         http_params := [];
         http_json := case_data ticket |}
  end.

(** The [try] block of [sync_ticket_to_qube]; [ticket] is the loaded row
    with the attributes assigned so far. *)
Definition sync_ticket_to_qube_body (ticket : Ticket) : prog database json :=
  token <~ lift get_qube_token ;;
  response <~ lift (httpx (sync_request token ticket)) ;;
  case_id <~ lift (json_getitem response "case_id") ;;
  (if Ticket_has_qube_case_id
   then
     text <~ lift (as_text case_id) ;;
     commit_ticket (commit_time (Ticket_id ticket))
       (with_fields ticket (Ticket_status ticket) (Ticket_priority ticket) text
          (Ticket_updated_at ticket))
   else commit_ticket (commit_time (Ticket_id ticket)) ticket) ;;~
  ret case_id.

Definition sync_ticket_to_qube (ticket : Ticket) : prog database json :=
  try_except (sync_ticket_to_qube_body ticket)
    (fun e => raise (HTTPException 500 ("Failed to sync ticket with Qube: " ++ str e))).






(** The [try] block of [get_qube_cases]. *)
Definition get_qube_cases_body (current_user : User) : prog database json :=
  token <~ lift get_qube_token ;;
  lift (configure_mappers configure_failed) ;;~
  owner_id <~ lift (match Property_owner_id with
                    | Some column => Ok column
                    | None => Raise (AttributeError
                                       "type object 'Property' has no attribute 'owner_id'")
                    end) ;;
  fun db =>
    let properties :=
      filter (fun p => String.eqb (owner_id p) (User_id current_user)) (properties db) in
    let property_ids := map Property_id properties in
    (response <~ lift (httpx
       {| http_method := "GET";
          http_url := QUBE_API_URL ++ "/cases";
          http_authorization := Some ("Bearer " ++ format_value token);
          http_params :=
            [("property_ids", JArray (map (fun id => JNumber (Z.of_nat id)) property_ids))];
          http_json := JNull |}) ;;
     lift (json_getitem response "cases")) db.

Definition get_qube_cases (current_user : User) : prog database json :=
  try_except (get_qube_cases_body current_user)
    (fun e => raise (HTTPException 500 (str e))).





(** What [sync_ticket_to_qube] obtains from Qube for a ticket, apart from
    the store: the case id and the row it goes on to commit, or the
    exception of the call that failed. *)
Definition remote_sync (ticket : Ticket) : result (json * Ticket) :=
  token <- get_qube_token ;;
  response <- httpx (sync_request token ticket) ;;
  case_id <- json_getitem response "case_id" ;;
  if Ticket_has_qube_case_id
  then
    text <- as_text case_id ;;
    Ok (case_id,
        with_fields ticket (Ticket_status ticket) (Ticket_priority ticket) text
          (Ticket_updated_at ticket))
  else Ok (case_id, ticket).

(** What a commit of [row] leaves of a stored row [r]. *)
Definition written (row r : Ticket) : Ticket :=
  if String.eqb (Ticket_id r) (Ticket_id row)
  then (if Ticket_eqb r row then r
        else with_fields row (Ticket_status row) (Ticket_priority row)
               (Ticket_qube_case_id row) (Some (commit_time (Ticket_id row))))
  else r.

End Sync.

End qube_integration.

(* ===================================================================== *)
(** ** Outgoing mail *)
(* ===================================================================== *)

Module smtplib.

(** The message handed to [server.send_message]: its headers and its one
    text part. *)
Record Message : Type := mkMessage {
  From : option string;
  To : string;
  Subject : string;
  text : string;
  subtype : string
}.

(** The mail that left, oldest first. *)
Definition outbox : Type := list Message.

(** What one SMTP session does with a message.  The session is the block
    [with smtplib.SMTP(...) as server:] with [starttls], [login] and
    [send_message]; leaving the block sends [QUIT], and raises
    [SMTPResponseException] when the server does not answer 221. *)
Inductive session : Type :=
| Delivered
    (* the server took the message and the block was left normally *)
| DeliveredThenRaised (e : exception)
    (* the server took the message; an exception left the block afterwards *)
| NotDelivered (e : exception).
    (* an exception left the block before the server took the message *)

(** The message has left. *)
Definition accepted (s : session) : bool :=
  match s with
  | Delivered | DeliveredThenRaised _ => true
  | NotDelivered _ => false
  end.

(** What the block gives the code around it. *)
Definition outcome (s : session) : result unit :=
  match s with
  | Delivered => Ok tt
  | DeliveredThenRaised e | NotDelivered e => Raise e
  end.

Section Send.

Variable smtp_session : Message -> session.

Definition send_message (msg : Message) : prog outbox unit :=
  fun sent =>
    (outcome (smtp_session msg),
     if accepted (smtp_session msg) then (sent ++ [msg])%list else sent).

End Send.

End smtplib.

(** [os.getenv(name, default)] over an environment [getenv]. *)
Definition os_getenv (getenv : string -> option string) (name default : string) : string :=
  match getenv name with
  | Some v => v
  | None => default
  end.

(* ===================================================================== *)
(** ** email_handler.py *)
(* ===================================================================== *)

Module email_handler.
Import email_classifier smtplib.

Record EmailRequest : Type := mkEmailRequest {
  sender_email : string;
  subject : string;
  content : string;
  property_id : option string
}.

Record EmailResponse : Type := mkEmailResponse {
  response : string;
  response_category : EmailCategory;
  escalated : bool
}.

Definition indent (n : nat) : string := String.concat "" (repeat " " n).

Definition response_context (category : EmailCategory) (property_id : option string) : string :=
  Py.nl
    ++ indent 8 ++ "Category: " ++ email_classifier.category category ++ Py.nl
    ++ indent 8 ++ "Department: " ++ department category ++ Py.nl
    ++ indent 8 ++ "Priority: " ++ priority category ++ Py.nl
    ++ indent 8 ++ "Property ID: "
    ++ match property_id with
       | Some p => if String.eqb p "" then "Not specified" else p
       | None => "Not specified"
       end ++ Py.nl
    ++ indent 8.

Definition response_request (email_content : string) (category : EmailCategory)
    (property_id : option string) : chat_request :=
  {| model := "gpt-4";
     system_content :=
       "You are a professional property management assistant." ++ Py.nl
         ++ indent 20 ++ "Generate a polite, helpful, and contextually appropriate email response." ++ Py.nl
         ++ indent 20 ++ "Keep the response concise but informative.";
     user_content :=
       "Context: " ++ response_context category property_id ++ Py.nl ++ Py.nl
         ++ "Original email: " ++ email_content ++ Py.nl ++ Py.nl
         ++ "Generate an appropriate response:";
     temperature := 0.7%float;
     max_tokens := 200 |}.

Section Handlers.

Variable acreate : chat_request -> result string.
Variable smtp_session : Message -> session.
Variable getenv : string -> option string.

Definition generate_email_response_body (email_content : string)
    (category : EmailCategory) (property_id : option string) : result string :=
  acreate (response_request email_content category property_id).

Definition generate_email_response (email_content : string)
    (category : EmailCategory) (property_id : option string) : result string :=
  try_except_500 "Error generating email response: "
    (generate_email_response_body email_content category property_id).

Definition send_email_body (to_email subject content : string) : prog outbox unit :=
  let from_email := os_getenv getenv "SMTP_FROM_EMAIL" "noreply@propertypro.com" in
  send_message smtp_session
    {| From := Some from_email; To := to_email; Subject := subject;
       text := content; subtype := "plain" |}.

Definition send_email (to_email subject content : string) : prog outbox unit :=
  try_except (send_email_body to_email subject content)
    (fun e => raise (HTTPException 500 ("Error sending email: " ++ str e))).

Definition escalation_text (request : EmailRequest) (category : EmailCategory) : string :=
  Py.nl
    ++ indent 16 ++ "Original email from: " ++ sender_email request ++ Py.nl
    ++ indent 16 ++ "Category: " ++ email_classifier.category category ++ Py.nl
    ++ indent 16 ++ "Priority: " ++ priority category ++ Py.nl
    ++ indent 16 ++ "Content: " ++ content request ++ Py.nl
    ++ indent 16.

(** The [try] block of [handle_email]. *)
Definition handle_email_body (request : EmailRequest) : prog outbox EmailResponse :=
  category <~ lift (classify_email acreate (content request)) ;;
  response <~ lift (generate_email_response (content request) category
                      (property_id request)) ;;
  let should_escalate := email_classifier.should_escalate category in
  (if should_escalate
   then
     let department_email := get_department_email (email_classifier.category category) in
     send_email department_email ("Escalated: " ++ subject request)
       (escalation_text request category)
   else ret tt) ;;~
  send_email (sender_email request) ("Re: " ++ subject request) response ;;~
  ret (mkEmailResponse response category should_escalate).

Definition handle_email (request : EmailRequest) : prog outbox EmailResponse :=
  try_except (handle_email_body request)
    (fun e => raise (HTTPException 500 ("Error processing email: " ++ str e))).

End Handlers.

(** The two messages [handle_email] hands to [send_email]. *)
Definition escalation_mail (getenv : string -> option string) (request : EmailRequest)
    (category : EmailCategory) : Message :=
  {| From := Some (os_getenv getenv "SMTP_FROM_EMAIL" "noreply@propertypro.com");
     To := get_department_email (email_classifier.category category);
     Subject := "Escalated: " ++ subject request;
     text := escalation_text request category;
     subtype := "plain" |}.

Definition reply_mail (getenv : string -> option string) (request : EmailRequest)
    (response : string) : Message :=
  {| From := Some (os_getenv getenv "SMTP_FROM_EMAIL" "noreply@propertypro.com");
     To := sender_email request;
     Subject := "Re: " ++ subject request;
     text := response;
     subtype := "plain" |}.

End email_handler.

(* ===================================================================== *)
(** ** email_notifications.py *)
(* ===================================================================== *)

Module email_notifications.
Import smtplib.

Section Notifications.

Variable smtp_session : Message -> session.
Variable getenv : string -> option string.

Definition EMAIL_FROM : string :=
  os_getenv getenv "EMAIL_FROM" "noreply@propertymanagement.com".

(** [send_email]: a failure is printed and the call returns [None]. *)
Definition send_email (to_email subject html_content : string) : prog outbox unit :=
  try_except
    (send_message smtp_session
       {| From := Some EMAIL_FROM; To := to_email; Subject := subject;
          text := html_content; subtype := "html" |})
    (fun _ => ret tt).

End Notifications.

(** One [background_tasks.add_task(send_email, to_email, subject, html)]. *)
Record Task : Type := mkTask {
  task_to : string;
  task_subject : string;
  task_html : string
}.

(** The tasks queued on a [BackgroundTasks], oldest first. *)
Definition BackgroundTasks : Type := list Task.

Definition add_task (to_email subject html_content : string) : prog BackgroundTasks unit :=
  fun queue => (Ok tt, (queue ++ [mkTask to_email subject html_content])%list).

Definition indent (n : nat) : string := String.concat "" (repeat " " n).

(** One line of a template, [n] spaces deep. *)
Definition line (n : nat) (content : string) : string := indent n ++ content ++ Py.nl.

(** How an f-string prints a nullable column. *)
Definition format_nullable (v : option string) : string :=
  match v with
  | Some s => s
  | None => "None"
  end.

(** [db.query(User).filter(User.id == id).first()] *)
Definition user_with_id (failed : models.registry) (id : string) (db : models.database)
  : result (option models.User) :=
  models.configure_mappers failed ;;;
  Ok (find (fun u => String.eqb (models.User_id u) id) (models.users db)).

Section Notify.
Import models.

(** What an earlier use of the ORM left in the process. *)
Variable configure_failed : registry.

(** [ticket.property.owner_id]: the id read through the relationship, or
    the exception the attribute access raises (models.py gives [Ticket] no
    [property]).  It is read after [db.query(User)] of the second query,
    which configures the mappers, and before the query runs. *)
Variable ticket_property_owner_id : Ticket -> result string.

Definition case_created_html (ticket : Ticket) : string :=
  Py.nl
    ++ line 4 "<html>"
    ++ line 8 "<body>"
    ++ line 12 "<h2>New Support Case Created</h2>"
    ++ line 12 ("<p><strong>Case ID:</strong> " ++ Ticket_id ticket ++ "</p>")
    ++ line 12 ("<p><strong>Title:</strong> " ++ Ticket_title ticket ++ "</p>")
    ++ line 12 ("<p><strong>Description:</strong> " ++ Ticket_description ticket ++ "</p>")
    ++ line 12 ("<p><strong>Priority:</strong> " ++ Ticket_priority ticket ++ "</p>")
    ++ line 12 ("<p><strong>Category:</strong> " ++ Ticket_category ticket ++ "</p>")
    ++ line 12 "<p>You can view and respond to this case in your dashboard.</p>"
    ++ line 8 "</body>"
    ++ line 4 "</html>"
    ++ indent 4.

Definition notify_case_created (ticket : Ticket) (db : database)
  : prog BackgroundTasks unit :=
  tenant <~ lift (user_with_id configure_failed (Ticket_user_id ticket) db) ;;
  match tenant with
  | None => ret tt
  | Some tenant =>
      lift (configure_mappers configure_failed) ;;~
      owner_id <~ lift (ticket_property_owner_id ticket) ;;
      property_owner <~ lift (user_with_id configure_failed owner_id db) ;;
      match property_owner with
      | None => ret tt
      | Some property_owner =>
          let subject := "New Support Case Created: " ++ Ticket_title ticket in
          let html_content := case_created_html ticket in
          add_task (User_email tenant) subject html_content ;;~
          add_task (User_email property_owner) subject html_content
      end
  end.

Definition case_updated_html (ticket : Ticket) (update_type : string)
    (comment : option string) : string :=
  Py.nl
    ++ line 4 "<html>"
    ++ line 8 "<body>"
    ++ line 12 "<h2>Case Update Notification</h2>"
    ++ line 12 ("<p><strong>Case ID:</strong> " ++ Ticket_id ticket ++ "</p>")
    ++ line 12 ("<p><strong>Title:</strong> " ++ Ticket_title ticket ++ "</p>")
    ++ line 12 ("<p><strong>Update Type:</strong> " ++ update_type ++ "</p>")
    ++ line 12 ("<p><strong>New Status:</strong> "
                ++ format_nullable (Ticket_status ticket) ++ "</p>")
    ++ line 12 ("<p><strong>New Priority:</strong> " ++ Ticket_priority ticket ++ "</p>")
    ++ line 12 (match comment with
                | Some c =>
                    if String.eqb c "" then ""
                    else "<p><strong>New Comment:</strong> " ++ c ++ "</p>"
                | None => ""
                end)
    ++ line 12 "<p>You can view the full details in your dashboard.</p>"
    ++ line 8 "</body>"
    ++ line 4 "</html>"
    ++ indent 4.

Definition notify_case_updated (ticket : Ticket) (db : database) (update_type : string)
    (comment : option string) : prog BackgroundTasks unit :=
  tenant <~ lift (user_with_id configure_failed (Ticket_user_id ticket) db) ;;
  match tenant with
  | None => ret tt
  | Some tenant =>
      lift (configure_mappers configure_failed) ;;~
      owner_id <~ lift (ticket_property_owner_id ticket) ;;
      property_owner <~ lift (user_with_id configure_failed owner_id db) ;;
      match property_owner with
      | None => ret tt
      | Some property_owner =>
          let subject := "Case Updated: " ++ Ticket_title ticket in
          let html_content := case_updated_html ticket update_type comment in
          add_task (User_email tenant) subject html_content ;;~
          add_task (User_email property_owner) subject html_content
      end
  end.

Definition case_closed_html (ticket : Ticket) : string :=
  Py.nl
    ++ line 4 "<html>"
    ++ line 8 "<body>"
    ++ line 12 "<h2>Case Closed</h2>"
    ++ line 12 ("<p><strong>Case ID:</strong> " ++ Ticket_id ticket ++ "</p>")
    ++ line 12 ("<p><strong>Title:</strong> " ++ Ticket_title ticket ++ "</p>")
    ++ line 12 ("<p><strong>Resolution:</strong> "
                ++ match Ticket_staff_response ticket with
                   | Some r => if String.eqb r "" then "No resolution provided" else r
                   | None => "No resolution provided"
                   end ++ "</p>")
    ++ line 12 "<p>Thank you for using our support system. If you have any further questions, please don't hesitate to create a new case.</p>"
    ++ line 8 "</body>"
    ++ line 4 "</html>"
    ++ indent 4.

Definition notify_case_closed (ticket : Ticket) (db : database)
  : prog BackgroundTasks unit :=
  tenant <~ lift (user_with_id configure_failed (Ticket_user_id ticket) db) ;;
  match tenant with
  | None => ret tt
  | Some tenant =>
      lift (configure_mappers configure_failed) ;;~
      owner_id <~ lift (ticket_property_owner_id ticket) ;;
      property_owner <~ lift (user_with_id configure_failed owner_id db) ;;
      match property_owner with
      | None => ret tt
      | Some property_owner =>
          let subject := "Case Closed: " ++ Ticket_title ticket in
          let html_content := case_closed_html ticket in
          add_task (User_email tenant) subject html_content ;;~
          add_task (User_email property_owner) subject html_content
      end
  end.

End Notify.

(** The queued tasks run in order after the response: each is one call of
    [send_email]. *)
Fixpoint run_tasks (smtp_session : smtplib.Message -> smtplib.session)
    (getenv : string -> option string) (queue : BackgroundTasks)
  : prog smtplib.outbox unit :=
  match queue with
  | [] => ret tt
  | task :: rest =>
      send_email smtp_session getenv (task_to task) (task_subject task) (task_html task) ;;~
      run_tasks smtp_session getenv rest
  end.

(** The message [send_email] builds for a task. *)
Definition task_message (getenv : string -> option string) (task : Task)
  : smtplib.Message :=
  {| smtplib.From := Some (EMAIL_FROM getenv);
     smtplib.To := task_to task;
     smtplib.Subject := task_subject task;
     smtplib.text := task_html task;
     smtplib.subtype := "html" |}.

End email_notifications.

(* ===================================================================== *)
(** ** email_scanner.py *)
(* ===================================================================== *)

Module email_scanner.
Import email_classifier smtplib.

(** What [process_unread_emails] reads of a fetched message: the outcome
    of [decode_email_subject(email_message["subject"])], of
    [parseaddr(email_message["from"])[1]] and of [get_email_body]. *)
Record EmailMessage : Type := mkEmailMessage {
  decoded_subject : result string;
  from_address : result string;
  email_body : result string
}.

Section Scanner.

Variable getenv : string -> option string.
(** [connect()], [select("INBOX")] and [search(None, "UNSEEN")]: the
    numbers of the unread messages in inbox order
    ([message_numbers[0].split()]), or the exception raised. *)
Variable imap_unseen : result (list string).
(** [imap.fetch(num, "(RFC822)")] and the parse of what it returns. *)
Variable imap_fetch : string -> result EmailMessage.
(** [imap.close()] and [imap.logout()]. *)
Variable imap_close : result unit.
Variable acreate : chat_request -> result string.
Variable smtp_session : Message -> session.
(** [datetime.now()] as printed when message [num] is forwarded
    ([strftime]) and when it is recorded ([isoformat]). *)
Variable received_at : string -> string.
Variable processed_at : string -> string.

Definition email_address : option string := getenv "EMAIL_ADDRESS".

Definition department_routes : Py.dict string :=
  [ ("complaint", os_getenv getenv "COMPLAINTS_EMAIL" "complaints@propertypro.com");
    ("rent_issue", os_getenv getenv "ARREARS_EMAIL" "arrears@propertypro.com");
    ("service_request", os_getenv getenv "REPAIRS_EMAIL" "repairs@propertypro.com");
    ("legal", os_getenv getenv "LEGAL_EMAIL" "legal@propertypro.com");
    ("praise", os_getenv getenv "CUSTOMER_SERVICE_EMAIL" "customer-service@propertypro.com");
    ("general_inquiry", os_getenv getenv "SUPPORT_EMAIL" "support@propertypro.com") ].

Definition indent (n : nat) : string := String.concat "" (repeat " " n).

(** [forward_email]: a failure is logged and raised again. *)
Definition forward_email (num : string) (to_email subject body original_sender
    category : string) : prog outbox unit :=
  try_except
    (let body' :=
       Py.nl
         ++ indent 12 ++ "Original sender: " ++ original_sender ++ Py.nl
         ++ indent 12 ++ "Category: " ++ category ++ Py.nl
         ++ indent 12 ++ "Received: " ++ received_at num ++ Py.nl
         ++ indent 12 ++ Py.nl
         ++ indent 12 ++ "Original message:" ++ Py.nl
         ++ indent 12 ++ body ++ Py.nl
         ++ indent 12 in
     send_message smtp_session
       {| From := email_address; To := to_email;
          Subject := "[" ++ Py.upper category ++ "] " ++ subject;
          text := body'; subtype := "plain" |})
    (fun e => raise e).

(** The inner [try] block: one unread message, from the fetch to the
    record that is appended to [processed_emails]. *)
Definition process_message (num : string) : prog outbox (Py.dict string) :=
  email_message <~ lift (imap_fetch num) ;;
  subject <~ lift (decoded_subject email_message) ;;
  sender <~ lift (from_address email_message) ;;
  body <~ lift (email_body email_message) ;;
  category <~ lift (classify_email acreate body) ;;
  (if Py.contains department_routes (email_classifier.category category)
   then
     route <~ lift (Py.getitem department_routes (email_classifier.category category)) ;;
     forward_email num route subject body sender (email_classifier.category category)
   else ret tt) ;;~
  ret [ ("id", num);
        ("subject", subject);
        ("sender", sender);
        ("category", email_classifier.category category);
        ("processed_at", processed_at num) ].

(** The [for num in ...] loop: a message whose block raises is logged and
    skipped ([continue]). *)
Fixpoint scan (nums : list string) (processed_emails : list (Py.dict string))
  : prog outbox (list (Py.dict string)) :=
  match nums with
  | [] => ret processed_emails
  | num :: rest =>
      fun sent =>
        match process_message num sent with
        | (Ok entry, sent') => scan rest (processed_emails ++ [entry])%list sent'
        | (Raise _, sent') => scan rest processed_emails sent'
        end
  end.

Definition process_unread_emails : prog outbox (list (Py.dict string)) :=
  try_except
    (nums <~ lift imap_unseen ;;
     processed_emails <~ scan nums [] ;;
     lift imap_close ;;~
     ret processed_emails)
    (fun e => raise e).

(** The outcome of one message on its own. *)
Definition message_outcome (num : string) : result (Py.dict string) :=
  fst (process_message num []).

(** The records of the messages of [nums] that are processed without an
    error, in the order of [nums]. *)
Fixpoint processed_without_error (nums : list string) : list (Py.dict string) :=
  match nums with
  | [] => []
  | num :: rest =>
      match message_outcome num with
      | Ok entry => entry :: processed_without_error rest
      | Raise _ => processed_without_error rest
      end
  end.

End Scanner.

(** A parsed message or one of its parts.  A part that is not multipart
    has its content type, the outcome of
    [get_payload(decode=True).decode()] and the text [get_payload()]
    gives; a multipart one has its content type and its parts. *)
Inductive Part : Type :=
| Leaf (content_type : string) (decoded : result string) (payload : string)
| Multipart (content_type : string) (parts : list Part).

Definition get_content_type (part : Part) : string :=
  match part with
  | Leaf content_type _ _ => content_type
  | Multipart content_type _ => content_type
  end.

(** [part.walk()]: the part, then the parts below it, depth first. *)
Fixpoint walk (part : Part) : list Part :=
  part :: match part with
          | Leaf _ _ _ => []
          | Multipart _ parts => flat_map walk parts
          end.

Definition quote : string := String (ascii_of_nat 34) "".

(** [body + text] where [text] is tried as the decoded payload and, when
    that raises, taken from [get_payload()]; on a multipart part the
    decoding raises and [get_payload()] is a list, which [+=] refuses. *)
Definition add_part_text (body : string) (part : Part) : result string :=
  match part with
  | Leaf _ (Ok text) _ => Ok (body ++ text)
  | Leaf _ (Raise _) payload => Ok (body ++ payload)
  | Multipart _ _ =>
      Raise (PyException "TypeError"
               ("can only concatenate str (not " ++ quote ++ "list" ++ quote ++ ") to str"))
  end.

(** The loop over [email_message.walk()]; [body] is what was read so far. *)
Fixpoint read_parts (parts : list Part) (body : string) : result string :=
  match parts with
  | [] => Ok body
  | part :: rest =>
      if String.eqb (get_content_type part) "text/plain"
      then body' <- add_part_text body part ;; read_parts rest body'
      else read_parts rest body
  end.

Definition get_email_body (email_message : Part) : result string :=
  match email_message with
  | Multipart _ _ => read_parts (walk email_message) ""
  | Leaf _ (Ok text) _ => Ok text
  | Leaf _ (Raise _) payload => Ok payload
  end.

(** The text of the [text/plain] leaves below a part, in document order. *)
Fixpoint plain_text (part : Part) : string :=
  match part with
  | Leaf content_type (Ok text) _ =>
      if String.eqb content_type "text/plain" then text else ""
  | Leaf content_type (Raise _) payload =>
      if String.eqb content_type "text/plain" then payload else ""
  | Multipart _ parts => String.concat "" (map plain_text parts)
  end.

(** No multipart part is labelled [text/plain], as in every message the
    parser builds. *)
Fixpoint containers_are_multipart (part : Part) : bool :=
  match part with
  | Leaf _ _ _ => true
  | Multipart content_type parts =>
      negb (String.eqb content_type "text/plain")
      && forallb containers_are_multipart parts
  end.

(** [msg] is the forward of the record [entry]: it goes to the route of
    the record's category, one of the four the classifier knows, under the
    subject line [forward_email] writes. *)
Definition forwarded_for (routes : Py.dict string) (entry : Py.dict string)
    (msg : Message) : Prop :=
  exists category subject,
    Py.get entry "category" = Some category
    /\ Py.get entry "subject" = Some subject
    /\ is_fixed_category category = true
    /\ Py.get routes category = Some (To msg)
    /\ Subject msg = "[" ++ Py.upper category ++ "] " ++ subject.

(** [msg] goes to the route of one of the four categories the classifier
    knows. *)
Definition routed (routes : Py.dict string) (msg : Message) : Prop :=
  exists category,
    is_fixed_category category = true
    /\ Py.get routes category = Some (To msg).

(** The mail one unread message may leave behind, given how its
    processing ended: the forward of its record when it was recorded;
    when it was skipped nothing, or a forward the server took before the
    session raised. *)
Definition mail_of (routes : Py.dict string) (ended : result (Py.dict string))
    (mail : list Message) : Prop :=
  match ended with
  | Ok entry => exists msg, mail = [msg] /\ forwarded_for routes entry msg
  | Raise _ => mail = [] \/ exists msg, mail = [msg] /\ routed routes msg
  end.

End email_scanner.

(* ===================================================================== *)
(** ** ml_classifier.py *)
(* ===================================================================== *)

Module ml_classifier.

(** [self.model]: [None], the pipeline before [fit] has succeeded, or the
    fitted (or loaded) pipeline. *)
Inductive pipeline (Model : Type) : Type :=
| NoModel
| Unfitted
| Fitted (m : Model).
Arguments NoModel {Model}.
Arguments Unfitted {Model}.
Arguments Fitted {Model} m.

Record EmailIntentClassifier (Model : Type) : Type := mkEmailIntentClassifier {
  model_path : string;
  categories : list string;
  training_data : Py.dict (list string);
  model : pipeline Model
}.
Arguments mkEmailIntentClassifier {Model}.
Arguments model_path {Model}.
Arguments categories {Model}.
Arguments training_data {Model}.
Arguments model {Model}.

(** The classifier object and the file at [model_path]: absent, or what
    [joblib.load] makes of it. *)
Record world (Model : Type) : Type := mkWorld {
  self : EmailIntentClassifier Model;
  disk : option (result Model)
}.
Arguments mkWorld {Model}.
Arguments self {Model}.
Arguments disk {Model}.

(** What [predict] returns. *)
Record Prediction : Type := mkPrediction {
  category : string;
  confidence : float;
  probabilities : Py.dict float
}.

(** [__init__] *)
Definition init {Model : Type} : EmailIntentClassifier Model :=
  {| model_path := "models/email_classifier.joblib";
     categories :=
       [ "complaint"; "rent_issue"; "service_request"; "praise"; "legal";
         "general_inquiry" ];
     training_data :=
       [ ("complaint",
           [ "The heating system is not working properly";
             "I've been waiting for maintenance for weeks";
             "The noise from the construction is unbearable";
             "My neighbor is causing disturbances";
             "The property is not being maintained well" ]);
         ("rent_issue",
           [ "I need to discuss my rent payment";
             "When is the rent due?";
             "I'm having trouble with the rent payment system";
             "Can I get an extension on my rent?";
             "I need to set up automatic rent payments" ]);
         ("service_request",
           [ "The faucet is leaking";
             "Need maintenance for the air conditioning";
             "The door lock is broken";
             "Request for pest control";
             "The garbage disposal is not working" ]);
         ("praise",
           [ "Thank you for the quick response";
             "The maintenance team did a great job";
             "I'm very happy with the service";
             "The property is well maintained";
             "The staff is very helpful" ]);
         ("legal",
           [ "I need to discuss my lease agreement";
             "There's a dispute with my neighbor";
             "I want to file a formal complaint";
             "Need legal advice about my tenancy";
             "I have questions about my rights as a tenant" ]);
         ("general_inquiry",
           [ "What are the office hours?";
             "How do I report a maintenance issue?";
             "Where can I find the community guidelines?";
             "What's the process for renewing my lease?";
             "How do I update my contact information?" ]) ];
     model := NoModel |}.

(** The loop of [prepare_training_data] over [training_data.items()]. *)
Fixpoint prepare (items : Py.dict (list string)) (texts labels : list string)
  : list string * list string :=
  match items with
  | [] => (texts, labels)
  | (category, examples) :: rest =>
      prepare rest (texts ++ examples)%list
        (labels ++ repeat category (length examples))%list
  end.

Definition prepare_training_data {Model : Type} (self : EmailIntentClassifier Model)
  : list string * list string :=
  prepare (training_data self) [] [].

(** [d[k].append(x)] *)
Fixpoint append_at (d : Py.dict (list string)) (k x : string)
  : result (Py.dict (list string)) :=
  match d with
  | [] => Raise (PyException "KeyError" ("'" ++ k ++ "'"))
  | (k', examples) :: d' =>
      if String.eqb k' k then Ok ((k', (examples ++ [x])%list) :: d')
      else
        match append_at d' k x with
        | Ok d'' => Ok ((k', examples) :: d'')
        | Raise e => Raise e
        end
  end.

Section Classifier.

(** A fitted scikit-learn pipeline and what the library does with it. *)
Variable Model : Type.
(** [train_test_split(texts, labels, test_size=0.2, random_state=42)] as
    [(X_train, X_val, y_train, y_val)]. *)
Variable train_test_split :
  list string -> list string ->
  result (list string * list string * list string * list string).
(** [Pipeline([...]).fit(X_train, y_train)] *)
Variable fit : list string -> list string -> result Model.
(** [model.score(X_val, y_val)] *)
Variable score : Model -> list string -> list string -> result float.
(** [os.makedirs(...)] and [joblib.dump(model, path)] *)
Variable dump : Model -> string -> result unit.
(** [model.predict_proba([text])[0]] and [model.classes_] *)
Variable predict_proba : Model -> string -> result (list float).
Variable classes_ : Model -> list string.
(** What [predict_proba] raises on a pipeline that was never fitted. *)
Variable NotFittedError : exception.

Definition set_model (m : pipeline Model) (w : world Model) : world Model :=
  mkWorld
    (mkEmailIntentClassifier (model_path (self w)) (categories (self w))
       (training_data (self w)) m)
    (disk w).

(** The [try] block of [train]. *)
Definition train_body : prog (world Model) unit :=
  fun w =>
    let (texts, labels) := prepare_training_data (self w) in
    match train_test_split texts labels with
    | Raise e => (Raise e, w)
    | Ok (X_train, X_val, y_train, y_val) =>
        let w1 := set_model Unfitted w in
        match fit X_train y_train with
        | Raise e => (Raise e, w1)
        | Ok m =>
            let w2 := set_model (Fitted m) w in
            match score m X_val y_val with
            | Raise e => (Raise e, w2)
            | Ok accuracy =>
                match dump m (model_path (self w)) with
                | Raise e => (Raise e, w2)
                | Ok _ => (Ok tt, mkWorld (self w2) (Some (Ok m)))
                end
            end
        end
    end.

Definition train : prog (world Model) unit :=
  try_except train_body (fun e => raise e).

Definition load_model : prog (world Model) unit :=
  try_except
    (fun w =>
       match disk w with
       | Some (Ok m) => (Ok tt, set_model (Fitted m) w)
       | Some (Raise e) => (Raise e, w)
       | None => train w
       end)
    (fun e => raise e).

(** The [try] block of [predict]. *)
Definition predict_body (text : string) : prog (world Model) Prediction :=
  (fun w =>
     match model (self w) with
     | NoModel => load_model w
     | _ => (Ok tt, w)
     end) ;;~
  fun w =>
    match model (self w) with
    | NoModel =>
        (Raise (PyException "AttributeError"
                  "'NoneType' object has no attribute 'predict_proba'"), w)
    | Unfitted => (Raise NotFittedError, w)
    | Fitted m =>
        (probas <- predict_proba m text ;;
         let predictions := Py.dict_of (combine (classes_ m) probas) in
         predicted_category <- Py.max_by_value predictions ;;
         Ok (mkPrediction (fst predicted_category) (snd predicted_category) predictions),
         w)
    end.

Definition predict (text : string) : prog (world Model) Prediction :=
  try_except (predict_body text) (fun e => raise e).

Definition update_training_data (text category : string) : prog (world Model) unit :=
  try_except
    (fun w =>
       if Py.in_list category (categories (self w))
       then
         match append_at (training_data (self w)) category text with
         | Raise e => (Raise e, w)
         | Ok data =>
             train
               (mkWorld
                  (mkEmailIntentClassifier (model_path (self w)) (categories (self w))
                     data (model (self w)))
                  (disk w))
         end
       else (Ok tt, w))
    (fun e => raise e).

End Classifier.

(** Every category the classifier accepts has its list of examples. *)
Definition categories_have_examples {Model : Type} (c : EmailIntentClassifier Model)
  : Prop :=
  forall category, In category (categories c) ->
                   Py.contains (training_data c) category = true.

(** The examples of [training_data], each with the category it stands
    under, in the order of the dict. *)
Definition labelled_examples (data : Py.dict (list string)) : list (string * string) :=
  flat_map (fun item => map (fun example => (example, fst item)) (snd item)) data.

End ml_classifier.

(* ===================================================================== *)
(** ** Sample data for the worked examples *)
(* ===================================================================== *)

Module sample.
Import models.

Definition ann : User :=
  mkUser "u-1" "ann@example.com" "hash-of-secret" "Ann" "tenant" true 0 None.

Definition root : User :=
  mkUser "u-0" "root@example.com" "hash-of-admin" "Root" "admin" true 0 None.

Definition empty_db : database := mkDatabase [] [] [] [].

Definition db_with_ann : database := mkDatabase [ann] [] [] [].

(** A password library for the examples: the hash of [p] is
    ["hash-of-" ++ p]. *)
Definition get_password_hash (password : string) : result string :=
  Ok ("hash-of-" ++ password).

Definition verify_password (plain hashed : string) : result bool :=
  Ok (String.eqb ("hash-of-" ++ plain) hashed).

Definition create_access_token (data : Py.dict string) : result string :=
  Ok ("token-for-" ++ Py.get_default data "sub" "").

Definition flat : schemas.PropertyCreate :=
  schemas.mkPropertyCreate "1 High Street" "apartment" 55.5%float 2 1 900.0%float "available".

Definition leak : schemas.MaintenanceTicketCreate :=
  schemas.mkMaintenanceTicketCreate "Leak" "The tap leaks" "high" 1.

Definition noise : ticket_system.TicketCreate :=
  ticket_system.mkTicketCreate "Noise" "Loud music at night" "complaint" "medium".

Definition synced_ticket : Ticket :=
  mkTicket "t-1" "Noise" "Loud music at night" "complaint" "medium" (Some "open")
    None None "u-1" 5 None (Some "Q-7").

Definition db_with_ticket : database := mkDatabase [ann] [] [] [synced_ticket].

(** A signer for the examples: every payload signs to ["good-signature"]. *)
Definition jwt_encode (payload : qube_integration.json) (key : option string)
  : result string := Ok "good-signature".

Definition case_updated : qube_integration.json :=
  qube_integration.JObject
    [ ("event_type", qube_integration.JString "case.updated");
      ("case", qube_integration.JObject
                 [ ("case_id", qube_integration.JString "Q-7");
                   ("status", qube_integration.JString "resolved") ]) ].

Definition signed_request : qube_integration.Request :=
  qube_integration.mkRequest (Some "good-signature") (Ok case_updated).

Definition forged_request : qube_integration.Request :=
  qube_integration.mkRequest (Some "bad-signature") (Ok case_updated).

Definition unsigned_request : qube_integration.Request :=
  qube_integration.mkRequest None (Ok case_updated).

(** An inbox of three unread messages; the second cannot be fetched. *)
Definition imap_fetch (num : string) : result email_scanner.EmailMessage :=
  if String.eqb num "2"
  then Raise (PyException "IMAP4.error" "FETCH failed")
  else Ok (email_scanner.mkEmailMessage (Ok ("Subject " ++ num))
             (Ok "tenant@example.com") (Ok "The heating is broken")).

Definition acreate (request : email_classifier.chat_request) : result string :=
  Ok "service_request".

Definition smtp_session (msg : smtplib.Message) : smtplib.session := smtplib.Delivered.

Definition getenv (name : string) : option string := None.

Definition clock (num : string) : string := "2024-01-01T00:00:00".

Definition heating_request : email_handler.EmailRequest :=
  email_handler.mkEmailRequest "tenant@example.com" "Heating" "The heating is broken" None.

(** An LLM that answers every prompt with the word [complaint]. *)
Definition complaint_llm (request : email_classifier.chat_request) : result string :=
  Ok "complaint".

(** An SMTP relay that refuses mail for the tenant. *)
Definition smtp_refuses_tenant (msg : smtplib.Message) : smtplib.session :=
  if String.eqb (smtplib.To msg) "tenant@example.com"
  then smtplib.NotDelivered (PyException "SMTPException" "relay refused")
  else smtplib.Delivered.

(** An SMTP relay that takes every message and then drops the connection
    for the tenant's: [QUIT] is answered with 421, not 221. *)
Definition smtp_drops_after_tenant (msg : smtplib.Message) : smtplib.session :=
  if String.eqb (smtplib.To msg) "tenant@example.com"
  then smtplib.DeliveredThenRaised
         (PyException "SMTPResponseException" "(421, b'closing connection')")
  else smtplib.Delivered.

(** A message with a plain part, an HTML part and an attachment. *)
Definition mixed_message : email_scanner.Part :=
  email_scanner.Multipart "multipart/mixed"
    [ email_scanner.Multipart "multipart/alternative"
        [ email_scanner.Leaf "text/plain" (Ok "The tap leaks. ") "The tap leaks. ";
          email_scanner.Leaf "text/html" (Ok "<p>The tap leaks.</p>") "<p>The tap leaks.</p>" ];
      email_scanner.Leaf "application/pdf" (Raise (PyException "UnicodeDecodeError" "invalid start byte")) "JVBERi0=";
      email_scanner.Leaf "text/plain" (Raise (PyException "UnicodeDecodeError" "invalid start byte")) "Regards, Ann" ].

(** A library for the intent classifier: models are numbers, the split
    keeps everything for training, and fitting works two times out of
    three. *)
Definition train_test_split (texts labels : list string)
  : result (list string * list string * list string * list string) :=
  Ok (texts, [], labels, []).

Definition fit (X_train y_train : list string) : result nat :=
  if Nat.eqb (Nat.modulo (length X_train) 3) 1
  then Raise (PyException "ValueError" "empty vocabulary")
  else Ok (length X_train).

Definition score (m : nat) (X_val y_val : list string) : result float := Ok 1%float.

Definition dump (m : nat) (path : string) : result unit := Ok tt.

Definition predict_proba (m : nat) (text : string) : result (list float) :=
  Ok [0.2%float; 0.7%float; 0.1%float].

Definition classes_ (m : nat) : list string := ["complaint"; "legal"; "praise"].

Definition NotFittedError : exception :=
  PyException "NotFittedError" "The TF-IDF vectorizer is not fitted".

Definition fresh_classifier : ml_classifier.world nat :=
  ml_classifier.mkWorld ml_classifier.init None.

Definition fitted_classifier : ml_classifier.world nat :=
  ml_classifier.mkWorld
    (ml_classifier.mkEmailIntentClassifier "models/email_classifier.joblib"
       (ml_classifier.categories (@ml_classifier.init nat))
       (ml_classifier.training_data (@ml_classifier.init nat))
       (ml_classifier.Fitted 30))
    (Some (Ok 30)).

End sample.

(* ===================================================================== *)
(** * Properties *)
(* ===================================================================== *)

(** ** Results and the 500 wrapper *)


Lemma try_except_500_ok {A : Type} (prefix : string) (body : result A) (a : A) :
  try_except_500 prefix body = Ok a <-> body = Ok a.
Proof.
  destruct body as [a0|e]; cbn; split; intros H; congruence.
Qed.


(** ** The e-mail classifier *)

Section ClassifierFacts.
Import email_classifier.

Example split_reply :
  Py.split (Py.lower ("  Complaint: the" ++ Py.nl ++ "heating  "))
  = ["complaint:"; "the"; "heating"].
Proof. reflexivity. Qed.

Example classify_rent :
  classify_email (fun _ => Ok "RENT_ISSUE (late payment)") "I cannot pay" =
  Ok (mkEmailCategory "rent_issue" 0.8%float "Finance" "high").
Proof. reflexivity. Qed.

Example classify_unknown :
  classify_email (fun _ => Ok "The category is complaint") "x" =
  Ok (mkEmailCategory "general_inquiry" 0.8%float "General Support" "low").
Proof. reflexivity. Qed.

Example classify_llm_failure :
  classify_email (fun _ => Raise (PyException "APIError" "rate limit")) "x" =
  Raise (HTTPException 500 "Error classifying email: rate limit").
Proof. reflexivity. Qed.

Lemma contains_CATEGORIES (w : string) :
  Py.contains CATEGORIES w = is_fixed_category w.
Proof.
  unfold Py.contains, is_fixed_category, CATEGORIES, Py.get.
  rewrite (String.eqb_sym "complaint" w), (String.eqb_sym "rent_issue" w),
    (String.eqb_sym "service_request" w), (String.eqb_sym "general_inquiry" w).
  destruct (String.eqb w "complaint"); [reflexivity|].
  destruct (String.eqb w "rent_issue"); [reflexivity|].
  destruct (String.eqb w "service_request"); [reflexivity|].
  destruct (String.eqb w "general_inquiry"); reflexivity.
Qed.

Lemma category_of_word_cases (w : string) :
  category_of_word w = "complaint" \/ category_of_word w = "rent_issue" \/
  category_of_word w = "service_request" \/ category_of_word w = "general_inquiry".
Proof.
  unfold category_of_word, is_fixed_category.
  destruct (String.eqb_spec w "complaint") as [->|_]; [now left|].
  destruct (String.eqb_spec w "rent_issue") as [->|_]; [now right; left|].
  destruct (String.eqb_spec w "service_request") as [->|_]; [now right; right; left|].
  destruct (String.eqb_spec w "general_inquiry") as [->|_]; now right; right; right.
Qed.

Lemma table_category_ok (w : string) :
  exists d p entry,
    table_category (category_of_word w)
      = Ok (mkEmailCategory (category_of_word w) 0.8%float d p)
    /\ Py.get CATEGORIES (category_of_word w) = Some entry
    /\ Py.get entry "department" = Some d
    /\ Py.get entry "priority" = Some p
    /\ (p = "high" <-> category_of_word w = "complaint" \/ category_of_word w = "rent_issue").
Proof.
  destruct (category_of_word_cases w) as [E|[E|[E|E]]]; rewrite E;
    do 3 eexists; (split; [reflexivity|]); (split; [reflexivity|]);
    (split; [reflexivity|]); (split; [reflexivity|]);
    split; intros H; try (now auto); try discriminate H;
    destruct H as [H|H]; discriminate H.
Qed.

Variable acreate : chat_request -> result string.

Lemma classify_email_body_word (email reply w : string) :
  acreate (classification_request email) = Ok reply ->
  first_word reply = Some w ->
  classify_email_body acreate email = table_category (category_of_word w).
Proof.
  intros Hreply Hw. unfold classify_email_body, first_word in *.
  rewrite Hreply. cbn [bind].
  destruct (Py.split (Py.lower reply)) as [|w0 rest]; [discriminate Hw|].
  injection Hw as ->. cbn [Py.item0 bind].
  rewrite contains_CATEGORIES. unfold category_of_word, table_category.
  destruct (is_fixed_category w); reflexivity.
Qed.

Lemma classify_email_body_blank (email reply : string) :
  acreate (classification_request email) = Ok reply ->
  first_word reply = None ->
  classify_email_body acreate email =
    Raise (PyException "IndexError" "list index out of range").
Proof.
  intros Hreply Hw. unfold classify_email_body, first_word in *.
  rewrite Hreply. cbn [bind].
  destruct (Py.split (Py.lower reply)) as [|w0 rest]; [reflexivity|discriminate Hw].
Qed.

(** Whatever [classify_email] returns was built from the first word of a
    reply of the LLM. *)
Lemma classify_email_ok_inv (email : string) (c : EmailCategory) :
  classify_email acreate email = Ok c ->
  exists reply w,
    acreate (classification_request email) = Ok reply
    /\ first_word reply = Some w
    /\ table_category (category_of_word w) = Ok c.
Proof.
  unfold classify_email, try_except_500. intros H.
  destruct (acreate (classification_request email)) as [reply|e] eqn:Hreply.
  - destruct (first_word reply) as [w|] eqn:Hw.
    + exists reply, w. rewrite (classify_email_body_word email reply w Hreply Hw) in H.
      destruct (table_category (category_of_word w)); [|discriminate H].
      injection H as ->. auto.
    + rewrite (classify_email_body_blank email reply Hreply Hw) in H. discriminate H.
  - unfold classify_email_body in H. rewrite Hreply in H. discriminate H.
Qed.

Lemma confidence_above_threshold : Py.gt 0.8%float 0.7%float = true.
Proof. reflexivity. Qed.

Lemma confidence_not_low : Py.lt 0.8%float 0.5%float = false.
Proof. reflexivity. Qed.

(** C1, as amended.  When the LLM call returns a reply that has a first
    whitespace-separated word [w] (after lowercasing), [classify_email]
    returns an [EmailCategory] whose confidence is the constant 0.8, whose
    category is [w] when [w] is one of the four fixed categories and
    ["general_inquiry"] otherwise, and whose department and priority are
    the [CATEGORIES] entries of that category. *)
Theorem classify_email_first_word (email reply w : string) :
  acreate (classification_request email) = Ok reply ->
  first_word reply = Some w ->
  exists d p entry,
    classify_email acreate email
      = Ok (mkEmailCategory (if is_fixed_category w then w else "general_inquiry")
              0.8%float d p)
    /\ Py.get CATEGORIES (if is_fixed_category w then w else "general_inquiry") = Some entry
    /\ Py.get entry "department" = Some d
    /\ Py.get entry "priority" = Some p.
Proof.
  intros Hreply Hw.
  destruct (table_category_ok w) as (d & p & entry & Ht & He & Hd & Hp & _).
  exists d, p, entry. unfold classify_email.
  rewrite (classify_email_body_word email reply w Hreply Hw), Ht.
  repeat split; assumption.
Qed.

(** What [should_escalate] makes of a category that [classify_email]
    returned. *)
Lemma should_escalate_classified (email : string) (c : EmailCategory) :
  classify_email acreate email = Ok c ->
  confidence c = 0.8%float
  /\ should_escalate c = String.eqb (priority c) "high"
  /\ (should_escalate c = true <->
        category c = "complaint" \/ category c = "rent_issue")
  /\ Py.lt (confidence c) 0.5%float = false.
Proof.
  intros H. destruct (classify_email_ok_inv email c H) as (reply & w & _ & _ & Ht).
  destruct (table_category_ok w) as (d & p & entry & Ht' & _ & _ & _ & Hhigh).
  rewrite Ht' in Ht. injection Ht as <-.
  unfold should_escalate. cbn [confidence priority category].
  rewrite confidence_above_threshold, confidence_not_low, andb_true_r, orb_false_r.
  repeat split.
  - intros Hp. apply Hhigh. now apply String.eqb_eq.
  - intros Hc. apply String.eqb_eq. now apply Hhigh.
Qed.

End ClassifierFacts.

(** C1, as the claim states it, fails: an empty reply of the LLM has no
    first word, and [classify_email] raises instead of returning. *)
Lemma classify_email_blank_reply :
  email_classifier.classify_email (fun _ => Ok "") "My heating is broken"
  = Raise (HTTPException 500 "Error classifying email: list index out of range").
Proof. reflexivity. Qed.

Lemma classify_email_first_word_witness :
  exists d p entry,
    email_classifier.classify_email (fun _ => Ok "Complaint about the noise") "It is loud"
      = Ok (email_classifier.mkEmailCategory "complaint" 0.8%float d p)
    /\ Py.get email_classifier.CATEGORIES "complaint" = Some entry
    /\ Py.get entry "department" = Some d
    /\ Py.get entry "priority" = Some p.
Proof.
  exact (classify_email_first_word (fun _ => Ok "Complaint about the noise")
           "It is loud" "Complaint about the noise" "complaint" eq_refl eq_refl).
Defined.

(** C2.  [should_escalate] is true exactly when the priority is ["high"]
    and the confidence exceeds 0.7, or the confidence is below 0.5; it is
    determined by these two fields, and by neither of them alone. *)
Theorem should_escalate_two_fields :
  (forall c : email_classifier.EmailCategory,
      email_classifier.should_escalate c = true <->
      (email_classifier.priority c = "high"
       /\ Py.gt (email_classifier.confidence c) 0.7%float = true)
      \/ Py.lt (email_classifier.confidence c) 0.5%float = true)
  /\ (forall c c' : email_classifier.EmailCategory,
         email_classifier.priority c = email_classifier.priority c' ->
         email_classifier.confidence c = email_classifier.confidence c' ->
         email_classifier.should_escalate c = email_classifier.should_escalate c')
  /\ (exists c c' : email_classifier.EmailCategory,
         email_classifier.confidence c = email_classifier.confidence c'
         /\ email_classifier.should_escalate c <> email_classifier.should_escalate c')
  /\ (exists c c' : email_classifier.EmailCategory,
         email_classifier.priority c = email_classifier.priority c'
         /\ email_classifier.should_escalate c <> email_classifier.should_escalate c').
Proof.
  split; [|split; [|split]].
  - intros c. unfold email_classifier.should_escalate.
    rewrite orb_true_iff, andb_true_iff, String.eqb_eq. reflexivity.
  - intros c c' Hp Hc. unfold email_classifier.should_escalate. now rewrite Hp, Hc.
  - exists (email_classifier.mkEmailCategory "x" 0.8%float "d" "high"),
      (email_classifier.mkEmailCategory "x" 0.8%float "d" "low").
    split; [reflexivity|]. cbv. discriminate.
  - exists (email_classifier.mkEmailCategory "x" 0.8%float "d" "low"),
      (email_classifier.mkEmailCategory "x" 0.4%float "d" "low").
    split; [reflexivity|]. cbv. discriminate.
Qed.

(** ** The mappers of models.py *)

Section MapperFacts.
Import models.

(** Of the five relationships models.py declares, one fails the check of
    its [back_populates]: [MaintenanceTicket.user] names [User.tickets],
    which leads to [Ticket]. *)
Lemma relationships_checked :
  map (fun r => is_ok (add_reverse_property relationships r)) relationships
  = [true; true; false; true; true].
Proof. reflexivity. Qed.

(** So the mappers cannot be configured: the first use of the ORM in a
    process raises [ArgumentError], every later one [InvalidRequestError]. *)
Lemma configure_mappers_raises (failed : registry) :
  exists e,
    configure_mappers failed = Raise e
    /\ status_of e = None
    /\ exists message,
         e = PyException (match failed with
                          | None => "ArgumentError"
                          | Some _ => "InvalidRequestError"
                          end) message.
Proof.
  destruct failed as [[mapper original]|]; eexists;
    (split; [reflexivity|split; [reflexivity|eexists; reflexivity]]).
Qed.

Lemma query_raises {A : Type} (failed : registry) (table : database -> list A)
    (db : database) (e : exception) :
  configure_mappers failed = Raise e ->
  query failed table db = (Raise e, db).
Proof. intros H. unfold query, pbind, lift. now rewrite H. Qed.

Lemma user_with_email_raises (failed : registry) (email : string) (db : database)
    (e : exception) :
  configure_mappers failed = Raise e ->
  user_with_email failed email db = (Raise e, db).
Proof.
  intros H. unfold user_with_email, pbind. now rewrite (query_raises _ _ _ _ H).
Qed.

End MapperFacts.

(** ** The handlers of main.py on the models as declared *)

Section MainFacts.
Import models schemas.

Variable configure_failed : registry.
Variable verify_password : string -> string -> result bool.
Variable get_password_hash : string -> result string.
Variable create_access_token : Py.dict string -> result string.

Local Notation login := (main.login configure_failed verify_password create_access_token).
Local Notation register_user := (main.register_user configure_failed get_password_hash).

(** C5.  [login] does not get as far as the password.  Its first
    statement, the query for the user, raises the error of the mapper
    configuration, which [login] does not catch: whatever the e-mail, the
    password and the store, the outcome is that exception -- not the 401,
    and never a token -- and the store is as it was. *)
Theorem login_never_answers (user_credentials : UserLogin) (db : database) :
  exists e,
    configure_mappers configure_failed = Raise e
    /\ status_of e = None
    /\ login user_credentials db = (Raise e, db)
    /\ fst (login user_credentials db) <> Raise main.unauthorized
    /\ (forall token, fst (login user_credentials db) <> Ok token).
Proof.
  destruct (configure_mappers_raises configure_failed) as (e & He & Hs & _).
  exists e. split; [exact He|]. split; [exact Hs|].
  assert (Hrun : login user_credentials db = (Raise e, db)).
  { unfold main.login, pbind. now rewrite (user_with_email_raises _ _ _ _ He). }
  rewrite Hrun. split; [reflexivity|]. cbn [fst]. split.
  - intros H. injection H as ->. discriminate Hs.
  - intros token H. discriminate H.
Qed.

(** C8.  [register_user] does not get as far as the test for a taken
    e-mail: the query for the user raises the error of the mapper
    configuration.  No request is answered with the 400, none adds a
    user, and the store is as it was. *)
Theorem register_user_never_answers_400 (new_id : string) (now : datetime)
    (user : UserCreate) (db : database) :
  exists e,
    configure_mappers configure_failed = Raise e
    /\ status_of e = None
    /\ register_user new_id now user db = (Raise e, db)
    /\ fst (register_user new_id now user db)
       <> Raise (HTTPException 400 "Email already registered").
Proof.
  destruct (configure_mappers_raises configure_failed) as (e & He & Hs & _).
  exists e. split; [exact He|]. split; [exact Hs|].
  assert (Hrun : register_user new_id now user db = (Raise e, db)).
  { unfold main.register_user, pbind. now rewrite (user_with_email_raises _ _ _ _ He). }
  rewrite Hrun. split; [reflexivity|]. cbn [fst].
  intros H. injection H as ->. discriminate Hs.
Qed.

(** C6.  [create_property] answers 403 and leaves the store as it is for
    a user whose role is not ["admin"].  For an admin it raises the error
    of the mapper configuration when it creates the [Property] instance:
    nobody's request adds a property. *)
Theorem create_property_admin_fails (now : datetime) (property : PropertyCreate)
    (current_user : User) (db : database) :
  (User_role current_user <> "admin" ->
     main.create_property configure_failed now property current_user db
     = (Raise (HTTPException 403 "Not authorized to create properties"), db))
  /\ (User_role current_user = "admin" ->
      exists e,
        configure_mappers configure_failed = Raise e
        /\ status_of e = None
        /\ main.create_property configure_failed now property current_user db
           = (Raise e, db))
  /\ snd (main.create_property configure_failed now property current_user db) = db.
Proof.
  destruct (configure_mappers_raises configure_failed) as (e & He & Hs & _).
  unfold main.create_property.
  destruct (String.eqb_spec (User_role current_user) "admin") as [Hrole|Hrole]; cbn [negb].
  - split; [intros H; contradiction|].
    assert (Hrun : forall p, (insert_property configure_failed p ;;~ ret p) db
                             = (Raise e, db)).
    { intros p. unfold insert_property, pbind, lift. now rewrite He. }
    split; [|now rewrite Hrun]. intros _. exists e. now rewrite Hrun.
  - split; [reflexivity|]. split; [contradiction|reflexivity].
Qed.

(** C7.  Neither ticket-creation handler stores or returns a record.
    Creating the mapped instance raises the error of the mapper
    configuration: the maintenance-ticket endpoint lets it through, the
    support-ticket endpoint reports it as HTTP 500; the store is as it
    was. *)
Theorem create_ticket_stores_nothing (current_user : User) (db : database) :
  exists e,
    configure_mappers configure_failed = Raise e
    /\ status_of e = None
    /\ (forall now ticket,
           main.create_ticket configure_failed now ticket current_user db
           = (Raise e, db))
    /\ (forall ai_response_body new_id now now' ticket,
           ticket_system.create_ticket configure_failed ai_response_body new_id now now'
             ticket current_user db
           = (Raise (HTTPException 500 (str e)), db)).
Proof.
  destruct (configure_mappers_raises configure_failed) as (e & He & Hs & _).
  exists e. split; [exact He|]. split; [exact Hs|]. split.
  - intros now ticket. unfold main.create_ticket, insert_maintenance_ticket, pbind, lift.
    now rewrite He.
  - intros ai new_id now now' ticket.
    unfold ticket_system.create_ticket, ticket_system.create_ticket_body, try_except,
      insert_ticket, pbind, lift.
    now rewrite He.
Qed.

End MainFacts.

(** ** The Qube webhook *)

Section WebhookFacts.
Import models qube_integration.

Variable QUBE_WEBHOOK_SECRET : option string.
Variable jwt_encode : json -> option string -> result string.
Variable Ticket_has_qube_case_id : bool.
Variable configure_failed : registry.

Local Notation qube_webhook :=
  (qube_integration.qube_webhook QUBE_WEBHOOK_SECRET jwt_encode Ticket_has_qube_case_id
     configure_failed).
Local Notation qube_webhook_body :=
  (qube_integration.qube_webhook_body QUBE_WEBHOOK_SECRET jwt_encode
     Ticket_has_qube_case_id configure_failed).
Local Notation signature_verifies :=
  (qube_integration.signature_verifies QUBE_WEBHOOK_SECRET jwt_encode).
Local Notation update_local_ticket :=
  (qube_integration.update_local_ticket Ticket_has_qube_case_id configure_failed).

(** The block that updates the local ticket stops at its query. *)
Lemma update_local_ticket_raises (now : datetime) (case_data : json) (db : database)
    (e : exception) :
  configure_mappers configure_failed = Raise e ->
  update_local_ticket now case_data db = (Raise e, db).
Proof.
  intros He. unfold qube_integration.update_local_ticket, pbind, lift. now rewrite He.
Qed.

Lemma qube_webhook_unverified (now : datetime) (request : Request) (db : database) :
  signature_verifies request = false ->
  exists detail,
    qube_webhook now request db = (Raise (HTTPException 500 detail), db).
Proof.
  unfold qube_integration.qube_webhook, qube_integration.qube_webhook_body,
    qube_integration.signature_verifies, try_except, pbind, lift, raise.
  destruct (X_Qube_Signature request) as [signature|]; [|intros _; now eexists].
  destruct (String.eqb signature ""); [intros _; now eexists|].
  destruct (request_json request) as [payload|e]; [|intros _; now eexists].
  destruct (jwt_encode payload QUBE_WEBHOOK_SECRET) as [expected|e];
    [|intros _; now eexists].
  destruct (String.eqb signature expected); cbn; [discriminate|].
  intros _; now eexists.
Qed.

Lemma qube_webhook_verified (now : datetime) (request : Request) (db : database) :
  signature_verifies request = true ->
  exists payload,
    request_json request = Ok payload
    /\ qube_webhook_body now request db
       = (event_type <~ lift (json_get payload "event_type") ;;
          case_data <~ lift (json_get payload "case") ;;
          (if json_eq_str event_type "case.updated"
           then update_local_ticket now case_data
           else ret tt) ;;~
          ret [("status", "success")]) db.
Proof.
  unfold qube_integration.qube_webhook_body, qube_integration.signature_verifies.
  destruct (X_Qube_Signature request) as [signature|]; [|discriminate].
  destruct (request_json request) as [payload|e]; [|discriminate].
  destruct (jwt_encode payload QUBE_WEBHOOK_SECRET) as [expected|e] eqn:Hjwt;
    [|discriminate].
  intros H. apply andb_true_iff in H. destruct H as [Hne Heq].
  apply negb_true_iff in Hne. exists payload. split; [reflexivity|].
  rewrite Hne. unfold pbind at 1, lift at 1. unfold pbind at 1, lift at 1.
  rewrite Hjwt, Heq. reflexivity.
Qed.

(** Whatever it is sent, the webhook leaves the store as it was. *)
Lemma qube_webhook_keeps_store (now : datetime) (request : Request) (db : database) :
  snd (qube_webhook now request db) = db.
Proof.
  destruct (configure_mappers_raises configure_failed) as (e & He & _).
  destruct (signature_verifies request) eqn:Hv.
  2:{ destruct (qube_webhook_unverified now request db Hv) as [detail Hd].
      now rewrite Hd. }
  destruct (qube_webhook_verified now request db Hv) as (payload & Hp & Hbody).
  unfold qube_integration.qube_webhook, try_except. rewrite Hbody.
  unfold pbind, lift, ret, raise.
  destruct (json_get payload "event_type") as [event_type|e0]; [|reflexivity].
  destruct (json_get payload "case") as [case_data|e0]; [|reflexivity].
  destruct (json_eq_str event_type "case.updated"); [|reflexivity].
  now rewrite (update_local_ticket_raises now case_data db e He).
Qed.

(** C4.  A request whose signature header is missing, empty or different
    from the signature recomputed over its payload is answered with an
    error and leaves the store as it is.  A request whose signature
    verifies updates nothing either: for the event ["case.updated"] the
    query for the ticket raises the error of the mapper configuration,
    which the handler reports as HTTP 500, and for every request the
    store is as it was. *)
Theorem qube_webhook_never_updates (now : datetime) (request : Request)
    (db : database) :
  (X_Qube_Signature request = None -> signature_verifies request = false)
  /\ (forall signature payload expected,
         X_Qube_Signature request = Some signature ->
         request_json request = Ok payload ->
         jwt_encode payload QUBE_WEBHOOK_SECRET = Ok expected ->
         signature <> expected ->
         signature_verifies request = false)
  /\ (signature_verifies request = false ->
      exists detail,
        qube_webhook now request db = (Raise (HTTPException 500 detail), db))
  /\ snd (qube_webhook now request db) = db
  /\ (signature_verifies request = true ->
      is_case_updated request = true ->
      exists e,
        configure_mappers configure_failed = Raise e
        /\ qube_webhook now request db = (Raise (HTTPException 500 (str e)), db)).
Proof.
  split; [|split; [|split; [|split]]].
  - unfold qube_integration.signature_verifies. now intros ->.
  - intros signature payload expected Hs Hp He Hne.
    unfold qube_integration.signature_verifies. rewrite Hs, Hp, He.
    apply String.eqb_neq in Hne. rewrite Hne. apply andb_false_r.
  - apply qube_webhook_unverified.
  - apply qube_webhook_keeps_store.
  - intros Hv Hevent.
    destruct (configure_mappers_raises configure_failed) as (e & He & _).
    exists e. split; [exact He|].
    destruct (qube_webhook_verified now request db Hv) as (payload & Hp & Hbody).
    unfold qube_integration.qube_webhook, try_except. rewrite Hbody.
    unfold is_case_updated in Hevent. rewrite Hp in Hevent.
    destruct payload as [| | | | |fields]; try discriminate Hevent.
    unfold pbind, lift, ret, raise. cbn [json_get]. rewrite Hevent.
    now rewrite (update_local_ticket_raises now _ db e He).
Qed.

End WebhookFacts.

(** ** The e-mail endpoint *)

Section EmailHandlerFacts.
Import email_classifier smtplib email_handler.

Variable acreate : chat_request -> result string.
Variable smtp_session : Message -> session.
Variable getenv : string -> option string.

Local Notation handle_email := (email_handler.handle_email acreate smtp_session getenv).
Local Notation handle_email_body :=
  (email_handler.handle_email_body acreate smtp_session getenv).

(** A response of [handle_email] carries a category that [classify_email]
    returned for the request, and the flag [should_escalate] gives it. *)
Lemma handle_email_ok_inv (request : EmailRequest) (sent sent' : outbox)
    (r : EmailResponse) :
  handle_email request sent = (Ok r, sent') ->
  classify_email acreate (content request) = Ok (response_category r)
  /\ escalated r = should_escalate (response_category r).
Proof.
  unfold email_handler.handle_email, email_handler.handle_email_body,
    try_except, pbind, lift, ret, raise.
  destruct (classify_email acreate (content request)) as [c|e]; [|discriminate].
  destruct (generate_email_response acreate (content request) c (property_id request))
    as [text|e]; [|discriminate].
  destruct (if should_escalate c then _ else _) as [[u|e] sent1]; [|discriminate].
  destruct (email_handler.send_email _ _ _ _ _ sent1) as [[u'|e] sent2]; [|discriminate].
  intros H. injection H as <- _. split; reflexivity.
Qed.

End EmailHandlerFacts.

(** C9.  Every [EmailCategory] that [classify_email] returns has
    confidence 0.8, so [should_escalate] holds of it exactly when its
    priority is ["high"], that is when its category is ["complaint"] or
    ["rent_issue"]; the test [confidence < 0.5] is false of it.  The
    [escalated] flag of a response of [handle_email] is that value. *)
Theorem classified_escalation :
  (forall acreate email c,
      email_classifier.classify_email acreate email = Ok c ->
      email_classifier.confidence c = 0.8%float
      /\ email_classifier.should_escalate c
         = String.eqb (email_classifier.priority c) "high"
      /\ (email_classifier.should_escalate c = true <->
            email_classifier.category c = "complaint"
            \/ email_classifier.category c = "rent_issue")
      /\ Py.lt (email_classifier.confidence c) 0.5%float = false)
  /\ (forall acreate smtp_session getenv request sent sent' r,
         email_handler.handle_email acreate smtp_session getenv request sent
         = (Ok r, sent') ->
         (email_handler.escalated r = true <->
            email_classifier.category (email_handler.response_category r) = "complaint"
            \/ email_classifier.category (email_handler.response_category r)
               = "rent_issue")
         /\ Py.lt (email_classifier.confidence (email_handler.response_category r))
              0.5%float = false).
Proof.
  split.
  - intros acreate email c H. exact (should_escalate_classified acreate email c H).
  - intros acreate smtp_session getenv request sent sent' r H.
    destruct (handle_email_ok_inv _ _ _ _ _ _ _ H) as [Hc ->].
    destruct (should_escalate_classified acreate _ _ Hc) as (_ & _ & Hiff & Hlow).
    split; assumption.
Qed.

Lemma classified_escalation_witness :
  email_classifier.should_escalate
    (email_classifier.mkEmailCategory "rent_issue" 0.8%float "Finance" "high") = true
  <-> "rent_issue" = "complaint" \/ "rent_issue" = "rent_issue".
Proof.
  exact (proj1 (proj2 (proj2
           (proj1 classified_escalation (fun _ => Ok "rent_issue") "I cannot pay"
              (email_classifier.mkEmailCategory "rent_issue" 0.8%float "Finance" "high")
              eq_refl)))).
Defined.

(** ** The inbox scanner *)

Section ScannerFacts.
Import email_classifier smtplib email_scanner.

Variable getenv : string -> option string.
Variable imap_unseen : result (list string).
Variable imap_fetch : string -> result EmailMessage.
Variable imap_close : result unit.
Variable acreate : chat_request -> result string.
Variable smtp_session : Message -> session.
Variable received_at : string -> string.
Variable processed_at : string -> string.

Local Notation process_message :=
  (email_scanner.process_message getenv imap_fetch acreate smtp_session
     received_at processed_at).
Local Notation message_outcome :=
  (email_scanner.message_outcome getenv imap_fetch acreate smtp_session
     received_at processed_at).
Local Notation scan :=
  (email_scanner.scan getenv imap_fetch acreate smtp_session received_at processed_at).
Local Notation processed_without_error :=
  (email_scanner.processed_without_error getenv imap_fetch acreate smtp_session
     received_at processed_at).
Local Notation process_unread_emails :=
  (email_scanner.process_unread_emails getenv imap_unseen imap_fetch imap_close
     acreate smtp_session received_at processed_at).

(** Whether a message is processed without an error does not depend on
    the mail sent before it. *)
Lemma process_message_outcome (num : string) (sent : outbox) :
  fst (process_message num sent) = message_outcome num.
Proof.
  unfold email_scanner.message_outcome, email_scanner.process_message,
    email_scanner.forward_email, send_message, try_except, pbind, lift, ret, raise.
  destruct (imap_fetch num) as [m|e]; [|reflexivity].
  destruct (decoded_subject m) as [subject|e]; [|reflexivity].
  destruct (from_address m) as [sender|e]; [|reflexivity].
  destruct (email_body m) as [body|e]; [|reflexivity].
  destruct (classify_email acreate body) as [c|e]; [|reflexivity].
  destruct (Py.contains _ (category c)); [|reflexivity].
  destruct (Py.getitem _ (category c)) as [route|e]; [|reflexivity].
  destruct (smtp_session _) as [|e|e]; reflexivity.
Qed.

Lemma message_outcome_id (num : string) (entry : Py.dict string) :
  message_outcome num = Ok entry -> Py.get entry "id" = Some num.
Proof.
  unfold email_scanner.message_outcome, email_scanner.process_message,
    email_scanner.forward_email, send_message, try_except, pbind, lift, ret, raise.
  destruct (imap_fetch num) as [m|e]; [|discriminate].
  destruct (decoded_subject m) as [subject|e]; [|discriminate].
  destruct (from_address m) as [sender|e]; [|discriminate].
  destruct (email_body m) as [body|e]; [|discriminate].
  destruct (classify_email acreate body) as [c|e]; [|discriminate].
  destruct (Py.contains _ (category c)).
  - destruct (Py.getitem _ (category c)) as [route|e]; [|discriminate].
    destruct (smtp_session _) as [|e|e]; [|discriminate|discriminate].
    cbn. intros H. injection H as <-. reflexivity.
  - cbn. intros H. injection H as <-. reflexivity.
Qed.

Lemma scan_collects (nums : list string) :
  forall (processed_emails : list (Py.dict string)) (sent : outbox),
    fst (scan nums processed_emails sent)
    = Ok (processed_emails ++ processed_without_error nums)%list.
Proof.
  induction nums as [|num rest IH]; intros processed_emails sent; cbn [email_scanner.scan
    email_scanner.processed_without_error].
  - cbn. now rewrite app_nil_r.
  - rewrite <- (process_message_outcome num sent).
    destruct (process_message num sent) as [[entry|e] sent1]; cbn [fst].
    + rewrite IH, <- app_assoc. reflexivity.
    + apply IH.
Qed.

Lemma processed_ids (nums : list string) :
  map (fun entry => Py.get entry "id") (processed_without_error nums)
  = map Some (filter (fun num => is_ok (message_outcome num)) nums).
Proof.
  induction nums as [|num rest IH]; cbn [email_scanner.processed_without_error filter];
    [reflexivity|].
  destruct (message_outcome num) as [entry|e] eqn:Hm; cbn [is_ok map].
  - now rewrite IH, (message_outcome_id num entry Hm).
  - exact IH.
Qed.

(** C10.  When the inbox can be opened and closed, [process_unread_emails]
    returns, whatever happens to single messages: the list it returns
    holds, in inbox order, the record of each unread message that is
    processed without an error, and no record of a message whose
    processing raised; a failing message does not stop the messages after
    it from being processed. *)
Theorem process_unread_emails_skips_failures (nums : list string) (sent : outbox) :
  imap_unseen = Ok nums ->
  imap_close = Ok tt ->
  fst (process_unread_emails sent) = Ok (processed_without_error nums)
  /\ map (fun entry => Py.get entry "id") (processed_without_error nums)
     = map Some (filter (fun num => is_ok (message_outcome num)) nums)
  /\ (forall entry,
         In entry (processed_without_error nums) <->
         exists num, In num nums /\ message_outcome num = Ok entry)
  /\ (forall before num after e,
         nums = (before ++ num :: after)%list ->
         message_outcome num = Raise e ->
         processed_without_error nums
         = (processed_without_error before ++ processed_without_error after)%list).
Proof.
  intros Hopen Hclose. split; [|split; [apply processed_ids|split]].
  - unfold email_scanner.process_unread_emails, try_except, pbind, lift, ret.
    rewrite Hopen, Hclose.
    pose proof (scan_collects nums [] sent) as Hscan.
    destruct (scan nums [] sent) as [[processed|e] sent1]; cbn [fst] in *.
    + exact Hscan.
    + discriminate Hscan.
  - intros entry. clear Hopen. induction nums as [|num rest IH];
      cbn [email_scanner.processed_without_error].
    + split; [intros []|intros (num & [] & _)].
    + destruct (message_outcome num) as [entry0|e] eqn:Hm.
      * cbn [In]. rewrite IH. split.
        -- intros [<-|(n & Hin & Hn)]; [exists num|exists n]; auto.
        -- intros (n & [<-|Hin] & Hn); [left; congruence|right; exists n; auto].
      * rewrite IH. split.
        -- intros (n & Hin & Hn). exists n. cbn. auto.
        -- intros (n & [<-|Hin] & Hn); [congruence|exists n; auto].
  - intros before num after e -> Hm. clear Hopen.
    induction before as [|b before IH]; cbn [app email_scanner.processed_without_error].
    + now rewrite Hm.
    + destruct (message_outcome b); [cbn [app]; f_equal|]; exact IH.
Qed.

End ScannerFacts.

(** ** Error reporting *)



Example chat_failure :
  main.chat (fun _ => Raise (PyException "Timeout" "request timed out")) "hello"
  = Raise (HTTPException 500 "Error processing chat request: request timed out").
Proof. reflexivity. Qed.



(** ** Worked instances *)

(** A wrong password for a stored user, in a process that has not used
    the ORM before: the query raises [ArgumentError]. *)
Example login_wrong_password :
  exists message,
    main.login None sample.verify_password sample.create_access_token
      (schemas.mkUserLogin "ann@example.com" "guess") sample.db_with_ann
    = (Raise (PyException "ArgumentError" message), sample.db_with_ann).
Proof. eexists. reflexivity. Qed.

(** The same request after an earlier request of the process has failed. *)
Example login_after_failed_configuration :
  exists message,
    main.login
      (Some (models.class_MaintenanceTicket, models.ArgumentError "reverse_property"))
      sample.verify_password sample.create_access_token
      (schemas.mkUserLogin "ann@example.com" "guess") sample.db_with_ann
    = (Raise (PyException "InvalidRequestError" message), sample.db_with_ann).
Proof. eexists. reflexivity. Qed.

Example create_property_by_tenant :
  main.create_property None 7 sample.flat sample.ann sample.db_with_ann
  = (Raise (HTTPException 403 "Not authorized to create properties"), sample.db_with_ann).
Proof. reflexivity. Qed.

Example create_property_by_admin :
  exists message,
    main.create_property None 7 sample.flat sample.root sample.empty_db
    = (Raise (PyException "ArgumentError" message), sample.empty_db).
Proof. eexists. reflexivity. Qed.

Example create_maintenance_ticket :
  exists message,
    main.create_ticket None 8 sample.leak sample.ann sample.db_with_ann
    = (Raise (PyException "ArgumentError" message), sample.db_with_ann).
Proof. eexists. reflexivity. Qed.

Example create_support_ticket :
  exists detail,
    ticket_system.create_ticket None (fun _ _ => Ok "We will call you.") "t-2" 8 9
      sample.noise sample.ann sample.db_with_ticket
    = (Raise (HTTPException 500 detail), sample.db_with_ticket).
Proof. eexists. reflexivity. Qed.

Example register_duplicate_email :
  exists message,
    main.register_user None sample.get_password_hash "u-3" 2
      (schemas.mkUserCreate "ann@example.com" "Ann 2" "admin" "pw") sample.db_with_ann
    = (Raise (PyException "ArgumentError" message), sample.db_with_ann).
Proof. eexists. reflexivity. Qed.

Example qube_webhook_unsigned :
  qube_integration.qube_webhook (Some "secret") sample.jwt_encode false None 10
    sample.unsigned_request sample.db_with_ticket
  = (Raise (HTTPException 500 "401: Missing signature"), sample.db_with_ticket).
Proof. reflexivity. Qed.

Example qube_webhook_forged :
  qube_integration.qube_webhook (Some "secret") sample.jwt_encode false None 10
    sample.forged_request sample.db_with_ticket
  = (Raise (HTTPException 500 "401: Invalid signature"), sample.db_with_ticket).
Proof. reflexivity. Qed.

(** A signed [case.updated] event for the case of a stored ticket: the
    ticket keeps its status. *)
Example qube_webhook_signed :
  exists detail,
    qube_integration.qube_webhook (Some "secret") sample.jwt_encode false None 10
      sample.signed_request sample.db_with_ticket
    = (Raise (HTTPException 500 detail), sample.db_with_ticket)
    /\ models.Ticket_status sample.synced_ticket = Some "open".
Proof. eexists. split; reflexivity. Qed.

Example get_ticket_of_owner :
  exists detail,
    ticket_system.get_ticket None "t-1" sample.ann sample.db_with_ticket
    = (Raise (HTTPException 500 detail), sample.db_with_ticket).
Proof. eexists. reflexivity. Qed.


Lemma process_unread_emails_skips_failures_witness :
  fst (email_scanner.process_unread_emails sample.getenv (Ok ["1"; "2"; "3"])
         sample.imap_fetch (Ok tt) sample.acreate sample.smtp_session
         sample.clock sample.clock [])
  = Ok [ [ ("id", "1"); ("subject", "Subject 1"); ("sender", "tenant@example.com");
           ("category", "service_request"); ("processed_at", "2024-01-01T00:00:00") ];
         [ ("id", "3"); ("subject", "Subject 3"); ("sender", "tenant@example.com");
           ("category", "service_request"); ("processed_at", "2024-01-01T00:00:00") ] ].
Proof.
  exact (proj1 (process_unread_emails_skips_failures sample.getenv (Ok ["1"; "2"; "3"])
                  sample.imap_fetch (Ok tt) sample.acreate sample.smtp_session
                  sample.clock sample.clock ["1"; "2"; "3"] [] eq_refl eq_refl)).
Defined.

Example scan_forwards_the_rest :
  map smtplib.To
    (snd (email_scanner.process_unread_emails sample.getenv (Ok ["1"; "2"; "3"])
            sample.imap_fetch (Ok tt) sample.acreate sample.smtp_session
            sample.clock sample.clock []))
  = ["repairs@propertypro.com"; "repairs@propertypro.com"].
Proof. reflexivity. Qed.

Example scan_survives_smtp_failure :
  fst (email_scanner.process_unread_emails sample.getenv (Ok ["1"; "2"; "3"])
         sample.imap_fetch (Ok tt) sample.acreate
         (fun msg =>
            if String.eqb (smtplib.Subject msg) "[SERVICE_REQUEST] Subject 1"
            then smtplib.NotDelivered (PyException "SMTPException" "relay refused")
            else smtplib.Delivered)
         sample.clock sample.clock [])
  = Ok [ [ ("id", "3"); ("subject", "Subject 3"); ("sender", "tenant@example.com");
           ("category", "service_request"); ("processed_at", "2024-01-01T00:00:00") ] ].
Proof. reflexivity. Qed.

Example scan_fails_when_inbox_cannot_be_opened :
  email_scanner.process_unread_emails sample.getenv
    (Raise (PyException "IMAP4.error" "LOGIN failed"))
    sample.imap_fetch (Ok tt) sample.acreate sample.smtp_session
    sample.clock sample.clock []
  = (Raise (PyException "IMAP4.error" "LOGIN failed"), []).
Proof. reflexivity. Qed.

(* ===================================================================== *)
(** * Further properties of the handlers *)
(* ===================================================================== *)

(** ** When the classifier fails *)

Section ClassifierOutcomes.
Import email_classifier.

Lemma isspace_lower_char (c : ascii) : Py.isspace (Py.lower_char c) = Py.isspace c.
Proof.
  destruct c as [[] [] [] [] [] [] [] []]; reflexivity.
Qed.

Lemma isblank_lower (s : string) : Py.isblank (Py.lower s) = Py.isblank s.
Proof.
  induction s as [|c s IH]; cbn; [reflexivity|].
  now rewrite isspace_lower_char, IH.
Qed.

Lemma append_char_not_empty (cur : string) (c : ascii) :
  String.eqb (cur ++ String c "") "" = false.
Proof. destruct cur; reflexivity. Qed.

Lemma split_from_nil (s : string) :
  forall cur, Py.split_from cur s = [] <-> (cur = "" /\ Py.isblank s = true).
Proof.
  induction s as [|c s IH]; intros cur; cbn [Py.split_from Py.isblank].
  - destruct (String.eqb_spec cur ""); split; intros H; try tauto;
      try discriminate H; destruct H; contradiction.
  - destruct (Py.isspace c); cbn [andb].
    + destruct (String.eqb_spec cur "") as [->|Hne].
      * rewrite IH. tauto.
      * split; [discriminate|]. intros [H _]. contradiction.
    + rewrite IH. split; [|intros [_ H]; discriminate H].
      intros [H _]. apply (f_equal (fun x => String.eqb x "")) in H.
      rewrite append_char_not_empty in H. discriminate H.
Qed.

Lemma first_word_none (reply : string) :
  first_word reply = None <-> Py.isblank reply = true.
Proof.
  unfold first_word, Py.split.
  destruct (Py.split_from "" (Py.lower reply)) as [|w rest] eqn:Hs.
  - apply split_from_nil in Hs. rewrite isblank_lower in Hs. tauto.
  - split; [discriminate|]. intros Hb.
    assert (H : Py.split_from "" (Py.lower reply) = []).
    { apply split_from_nil. now rewrite isblank_lower. }
    congruence.
Qed.

Lemma category_of_word_fixed (w : string) :
  is_fixed_category (category_of_word w) = true.
Proof.
  destruct (category_of_word_cases w) as [E|[E|[E|E]]]; rewrite E; reflexivity.
Qed.

(** X1.  [classify_email] fails in exactly two cases, always with HTTP
    500: the LLM call raised, or its reply is blank (empty or whitespace
    only).  For every other reply it returns one of the four fixed
    categories. *)
Theorem classify_email_outcomes (acreate : chat_request -> result string)
    (email : string) :
  match acreate (classification_request email) with
  | Raise e =>
      classify_email acreate email
      = Raise (HTTPException 500 ("Error classifying email: " ++ str e))
  | Ok reply =>
      if Py.isblank reply
      then classify_email acreate email
           = Raise (HTTPException 500 "Error classifying email: list index out of range")
      else exists c, classify_email acreate email = Ok c
                     /\ is_fixed_category (category c) = true
  end.
Proof.
  destruct (acreate (classification_request email)) as [reply|e] eqn:Hreply.
  - destruct (Py.isblank reply) eqn:Hb.
    + unfold classify_email.
      rewrite (classify_email_body_blank acreate email reply Hreply); [reflexivity|].
      now apply first_word_none.
    + destruct (first_word reply) as [w|] eqn:Hw.
      * destruct (table_category_ok w) as (d & p & entry & Ht & _).
        eexists. unfold classify_email.
        rewrite (classify_email_body_word acreate email reply w Hreply Hw), Ht.
        split; [reflexivity|]. apply category_of_word_fixed.
      * apply first_word_none in Hw. congruence.
  - unfold classify_email, classify_email_body. now rewrite Hreply.
Qed.

End ClassifierOutcomes.

(** ** The mail [handle_email] sends *)

Section HandleEmailMail.
Import email_classifier smtplib email_handler.

Variable acreate : chat_request -> result string.
Variable smtp_session : Message -> session.
Variable getenv : string -> option string.

Local Notation handle_email := (email_handler.handle_email acreate smtp_session getenv).
Local Notation send_email := (email_handler.send_email smtp_session getenv).

Lemma send_email_outcome (to_email subject content : string) (sent : outbox) :
  let msg :=
    {| From := Some (os_getenv getenv "SMTP_FROM_EMAIL" "noreply@propertypro.com");
       To := to_email; Subject := subject; text := content; subtype := "plain" |} in
  send_email to_email subject content sent
  = (match outcome (smtp_session msg) with
     | Ok _ => Ok tt
     | Raise e => Raise (HTTPException 500 ("Error sending email: " ++ str e))
     end,
     if accepted (smtp_session msg) then (sent ++ [msg])%list else sent).
Proof.
  cbn zeta. unfold email_handler.send_email, email_handler.send_email_body,
    try_except, send_message, raise.
  destruct (smtp_session _) as [|e|e]; reflexivity.
Qed.

Lemma escalated_department (email : string) (c : EmailCategory) :
  classify_email acreate email = Ok c ->
  should_escalate c = true ->
  get_department_email (category c) = "customer-service@propertypro.com"
  \/ get_department_email (category c) = "finance@propertypro.com".
Proof.
  intros Hc He.
  destruct (should_escalate_classified acreate email c Hc) as (_ & _ & Hiff & _).
  apply Hiff in He. destruct He as [-> | ->]; [left|right]; reflexivity.
Qed.

(** X2.  A request that [handle_email] answers has sent, in this order,
    the escalation message when the response is flagged [escalated] --
    and then to customer service or to finance, no other department --
    and the reply to the sender; nothing else leaves. *)
Theorem handle_email_sends (request : EmailRequest) (sent sent' : outbox)
    (r : EmailResponse) :
  handle_email request sent = (Ok r, sent') ->
  sent' = (sent
           ++ (if escalated r
               then [escalation_mail getenv request (response_category r)]
               else [])
           ++ [reply_mail getenv request (response r)])%list
  /\ (escalated r = true ->
      To (escalation_mail getenv request (response_category r))
        = "customer-service@propertypro.com"
      \/ To (escalation_mail getenv request (response_category r))
        = "finance@propertypro.com").
Proof.
  unfold email_handler.handle_email, email_handler.handle_email_body,
    try_except, pbind, lift, ret, raise.
  destruct (classify_email acreate (content request)) as [c|e] eqn:Hc; [|discriminate].
  destruct (generate_email_response acreate (content request) c (property_id request))
    as [reply|e]; [|discriminate].
  destruct (should_escalate c) eqn:Hesc.
  - rewrite send_email_outcome.
    destruct (smtp_session _) as [|e|e]; cbn [outcome accepted]; try discriminate.
    rewrite send_email_outcome.
    destruct (smtp_session _) as [|e|e]; cbn [outcome accepted]; try discriminate.
    intros H. injection H as <- <-. cbn [escalated response response_category].
    rewrite <- app_assoc. split; [reflexivity|].
    intros _. exact (escalated_department _ c Hc Hesc).
  - rewrite send_email_outcome.
    destruct (smtp_session _) as [|e|e]; cbn [outcome accepted]; try discriminate.
    intros H. injection H as <- <-. cbn [escalated response response_category].
    split; [reflexivity|discriminate].
Qed.

(** X3.  A request that [handle_email] refuses may have sent mail all the
    same, a session that raises after the server took the message
    included.  What left is then an initial part of what an answered
    request sends -- the escalation message of a category that calls for
    one, then the reply -- so no other message leaves, none twice, and the
    reply never without the escalation that was due; and while the
    classification or the reply text is missing nothing leaves. *)
Theorem handle_email_failure_mail (request : EmailRequest) (sent sent' : outbox)
    (e : exception) :
  handle_email request sent = (Raise e, sent') ->
  exists left,
    sent' = (sent ++ left)%list
    /\ (left = []
        \/ exists c reply rest,
             classify_email acreate (content request) = Ok c
             /\ generate_email_response acreate (content request) c (property_id request)
                = Ok reply
             /\ (left ++ rest)%list
                = ((if should_escalate c then [escalation_mail getenv request c] else [])
                   ++ [reply_mail getenv request reply])%list).
Proof.
  unfold email_handler.handle_email, email_handler.handle_email_body,
    try_except, pbind, lift, ret, raise.
  destruct (classify_email acreate (content request)) as [c|e0] eqn:Hc.
  2:{ intros H. injection H as _ <-. exists []. rewrite app_nil_r. auto. }
  destruct (generate_email_response acreate (content request) c (property_id request))
    as [reply|e0] eqn:Hreply.
  2:{ intros H. injection H as _ <-. exists []. rewrite app_nil_r. auto. }
  destruct (should_escalate c) eqn:Hesc.
  - rewrite send_email_outcome.
    destruct (smtp_session _) as [|e0|e0]; cbn [outcome accepted].
    + rewrite send_email_outcome.
      destruct (smtp_session _) as [|e1|e1]; cbn [outcome accepted]; try discriminate;
        intros H; injection H as _ <-.
      * exists [escalation_mail getenv request c; reply_mail getenv request reply].
        split; [now rewrite <- app_assoc|].
        right. exists c, reply, []. rewrite Hesc. repeat split; auto.
      * exists [escalation_mail getenv request c]. split; [reflexivity|].
        right. exists c, reply, [reply_mail getenv request reply]. rewrite Hesc.
        repeat split; auto.
    + intros H. injection H as _ <-.
      exists [escalation_mail getenv request c]. split; [reflexivity|].
      right. exists c, reply, [reply_mail getenv request reply]. rewrite Hesc.
      repeat split; auto.
    + intros H. injection H as _ <-. exists []. rewrite app_nil_r. auto.
  - rewrite send_email_outcome.
    destruct (smtp_session _) as [|e0|e0]; cbn [outcome accepted]; try discriminate;
      intros H; injection H as _ <-.
    + exists [reply_mail getenv request reply]. split; [reflexivity|].
      right. exists c, reply, []. rewrite Hesc. repeat split; auto.
    + exists []. rewrite app_nil_r. auto.
Qed.

End HandleEmailMail.

(** ** The mail the inbox scanner forwards *)

Section ScannerMail.
Import email_classifier smtplib email_scanner.

Variable getenv : string -> option string.
Variable imap_unseen : result (list string).
Variable imap_fetch : string -> result EmailMessage.
Variable imap_close : result unit.
Variable acreate : chat_request -> result string.
Variable smtp_session : Message -> session.
Variable received_at : string -> string.
Variable processed_at : string -> string.

Local Notation process_message :=
  (email_scanner.process_message getenv imap_fetch acreate smtp_session
     received_at processed_at).
Local Notation message_outcome :=
  (email_scanner.message_outcome getenv imap_fetch acreate smtp_session
     received_at processed_at).
Local Notation scan :=
  (email_scanner.scan getenv imap_fetch acreate smtp_session received_at processed_at).
Local Notation process_unread_emails :=
  (email_scanner.process_unread_emails getenv imap_unseen imap_fetch imap_close
     acreate smtp_session received_at processed_at).
Local Notation routes := (email_scanner.department_routes getenv).

Lemma classified_category_fixed (email : string) (c : EmailCategory) :
  classify_email acreate email = Ok c ->
  category c = "complaint" \/ category c = "rent_issue"
  \/ category c = "service_request" \/ category c = "general_inquiry".
Proof.
  intros H. destruct (classify_email_ok_inv acreate email c H) as (reply & w & _ & _ & Ht).
  destruct (table_category_ok w) as (d & p & entry & Ht' & _).
  rewrite Ht' in Ht. injection Ht as <-. cbn [category].
  apply category_of_word_cases.
Qed.

(** What one message adds to the mail that left. *)
Lemma process_message_mail (num : string) (sent : outbox) :
  exists mail,
    snd (process_message num sent) = (sent ++ mail)%list
    /\ mail_of routes (fst (process_message num sent)) mail.
Proof.
  unfold email_scanner.process_message, pbind, lift.
  destruct (imap_fetch num) as [m|e]; [|exists []; rewrite app_nil_r; cbn; auto].
  destruct (decoded_subject m) as [subject|e]; [|exists []; rewrite app_nil_r; cbn; auto].
  destruct (from_address m) as [sender|e]; [|exists []; rewrite app_nil_r; cbn; auto].
  destruct (email_body m) as [body|e]; [|exists []; rewrite app_nil_r; cbn; auto].
  destruct (classify_email acreate body) as [c|e] eqn:Hc;
    [|exists []; rewrite app_nil_r; cbn; auto].
  destruct (classified_category_fixed body c Hc) as [E|[E|[E|E]]]; rewrite E;
    cbn [Py.contains Py.get Py.getitem email_scanner.department_routes String.eqb
         Ascii.eqb Bool.eqb];
    unfold email_scanner.forward_email, try_except, send_message, ret, raise;
    (destruct (smtp_session _) as [|e|e]; cbn [outcome accepted fst snd mail_of];
     [ eexists; split; [reflexivity|]; eexists; split; [reflexivity|];
       do 2 eexists; repeat split; reflexivity
     | eexists; split; [reflexivity|]; right; eexists; split; [reflexivity|];
       exists (category c); rewrite E; split; reflexivity
     | exists []; rewrite app_nil_r; auto ]).
Qed.

Lemma scan_mail (nums : list string) :
  forall (processed_emails : list (Py.dict string)) (sent : outbox),
  exists mails,
    snd (scan nums processed_emails sent) = (sent ++ concat mails)%list
    /\ Forall2 (fun num mail => mail_of routes (message_outcome num) mail) nums mails.
Proof.
  induction nums as [|num rest IH]; intros processed_emails sent;
    cbn [email_scanner.scan].
  - exists []. cbn. rewrite app_nil_r. split; [reflexivity|constructor].
  - destruct (process_message_mail num sent) as (mail & Hsent & Hmail).
    rewrite (process_message_outcome getenv imap_fetch acreate smtp_session
               received_at processed_at num sent) in Hmail.
    destruct (process_message num sent) as [[entry|e] sent1]; cbn [snd] in Hsent;
      subst sent1.
    + destruct (IH (processed_emails ++ [entry])%list (sent ++ mail)%list)
        as (mails & Hmails & Hall).
      exists (mail :: mails). cbn [concat]. rewrite Hmails, <- app_assoc.
      split; [reflexivity|]. constructor; assumption.
    + destruct (IH processed_emails (sent ++ mail)%list) as (mails & Hmails & Hall).
      exists (mail :: mails). cbn [concat]. rewrite Hmails, <- app_assoc.
      split; [reflexivity|]. constructor; assumption.
Qed.

(** X4.  Once the inbox has been opened, what the scanner sends is, in
    inbox order, what the unread messages leave behind one by one: a
    recorded message exactly one forward, to the route of the record's
    category and under its subject line; a skipped message nothing, or
    one forward that the server took before the session raised.  Every
    forward goes to the route of one of the four categories the
    classifier knows: the routes of [legal] and [praise] are never
    used. *)
Theorem scanner_forwards_each_record (nums : list string) (sent : outbox) :
  imap_unseen = Ok nums ->
  exists mails,
    snd (process_unread_emails sent) = (sent ++ concat mails)%list
    /\ Forall2 (fun num mail => mail_of routes (message_outcome num) mail) nums mails.
Proof.
  intros Hopen.
  destruct (scan_mail nums [] sent) as (mails & Hmails & Hall).
  exists mails. split; [|assumption].
  unfold email_scanner.process_unread_emails, try_except, pbind, lift, ret, raise.
  rewrite Hopen.
  destruct (scan nums [] sent) as [[processed|e] sent1]; cbn [snd] in *.
  - destruct imap_close; assumption.
  - assumption.
Qed.

End ScannerMail.

(** ** Case notifications (email_notifications.py) *)

Section NotificationFacts.
Import smtplib email_notifications.

Variable smtp_session : Message -> session.
Variable getenv : string -> option string.

(** X13.  The notification [send_email] never raises: the message has
    left exactly when the server took it, whether or not the session then
    raised.  So when the queued tasks are run none fails, a task whose
    session raised does not hold back the tasks after it, and the mail
    that leaves is, in the order of the queue, that of the tasks whose
    message the server took. *)
Theorem notification_tasks_never_fail (queue : BackgroundTasks) (sent : outbox) :
  (forall task sent0,
      email_notifications.send_email smtp_session getenv (task_to task)
        (task_subject task) (task_html task) sent0
      = (Ok tt,
         if accepted (smtp_session (task_message getenv task))
         then (sent0 ++ [task_message getenv task])%list else sent0))
  /\ run_tasks smtp_session getenv queue sent
     = (Ok tt,
        (sent ++ map (task_message getenv)
                   (filter (fun task => accepted (smtp_session (task_message getenv task)))
                           queue))%list).
Proof.
  assert (Hone : forall task sent0,
             email_notifications.send_email smtp_session getenv (task_to task)
               (task_subject task) (task_html task) sent0
             = (Ok tt,
                if accepted (smtp_session (task_message getenv task))
                then (sent0 ++ [task_message getenv task])%list else sent0)).
  { intros task sent0.
    unfold email_notifications.send_email, try_except, send_message, ret.
    fold (task_message getenv task).
    destruct (smtp_session (task_message getenv task)); reflexivity. }
  split; [exact Hone|].
  revert sent. induction queue as [|task rest IH]; intros sent.
  - cbn. now rewrite app_nil_r.
  - cbn [run_tasks filter]. unfold pbind. rewrite Hone.
    destruct (accepted (smtp_session (task_message getenv task))); cbn [map].
    + rewrite IH, <- app_assoc. reflexivity.
    + apply IH.
Qed.

End NotificationFacts.

(** ** The handlers that read the store, on the models as declared *)

Section StoreReaders.
Import models.

Variable configure_failed : registry.

(** X23.  No handler that reads the store gets past its first query: the
    mappers of models.py cannot be configured.  The listings and the
    statistics of main.py raise that error as it is, the support-ticket
    listing and lookup and [get_qube_cases] report it as HTTP 500, and the
    three case notifications raise it before they queue anything; the
    store is as it was. *)
Theorem store_readers_fail :
  exists e,
    configure_mappers configure_failed = Raise e
    /\ status_of e = None
    /\ (forall skip limit current_user db,
           main.get_properties configure_failed skip limit current_user db
           = (Raise e, db))
    /\ (forall current_user db,
           main.get_tickets configure_failed current_user db = (Raise e, db))
    /\ (forall current_user db,
           User_role current_user = "admin" ->
           main.get_admin_stats configure_failed current_user db = (Raise e, db))
    /\ (forall current_user db,
           ticket_system.get_tickets configure_failed current_user db
           = (Raise (HTTPException 500 (str e)), db))
    /\ (forall ticket_id current_user db,
           ticket_system.get_ticket configure_failed ticket_id current_user db
           = (Raise (HTTPException 500 (str e)), db))
    /\ (forall url client_id client_secret httpx format_json owner_id current_user db,
           exists detail,
             qube_integration.get_qube_cases url client_id client_secret httpx format_json
               configure_failed owner_id current_user db
             = (Raise (HTTPException 500 detail), db))
    /\ (forall owner_of ticket db queue,
           email_notifications.notify_case_created configure_failed owner_of ticket db queue
           = (Raise e, queue))
    /\ (forall owner_of ticket db update_type comment queue,
           email_notifications.notify_case_updated configure_failed owner_of ticket db
             update_type comment queue
           = (Raise e, queue))
    /\ (forall owner_of ticket db queue,
           email_notifications.notify_case_closed configure_failed owner_of ticket db queue
           = (Raise e, queue)).
Proof.
  destruct (configure_mappers_raises configure_failed) as (e & He & Hs & _).
  exists e. split; [exact He|]. split; [exact Hs|].
  repeat match goal with |- _ /\ _ => split end.
  - intros skip limit current_user db.
    unfold main.get_properties, pbind. now rewrite (query_raises _ _ _ _ He).
  - intros current_user db. unfold main.get_tickets, pbind.
    destruct (String.eqb _ "admin"); now rewrite (query_raises _ _ _ _ He).
  - intros current_user db Hrole. unfold main.get_admin_stats, pbind.
    apply String.eqb_eq in Hrole. rewrite Hrole. cbn [negb].
    now rewrite (query_raises _ _ _ _ He).
  - intros current_user db.
    unfold ticket_system.get_tickets, ticket_system.get_tickets_body, try_except, pbind.
    now rewrite (query_raises _ _ _ _ He).
  - intros ticket_id current_user db.
    unfold ticket_system.get_ticket, ticket_system.get_ticket_body, try_except, pbind.
    now rewrite (query_raises _ _ _ _ He).
  - intros url client_id client_secret httpx format_json owner_id current_user db.
    unfold qube_integration.get_qube_cases, qube_integration.get_qube_cases_body,
      try_except, pbind, lift, raise.
    destruct (qube_integration.get_qube_token url client_id client_secret httpx)
      as [token|e0]; [rewrite He|]; eexists; reflexivity.
  - intros owner_of ticket db queue.
    unfold email_notifications.notify_case_created, email_notifications.user_with_id,
      pbind, lift.
    now rewrite He.
  - intros owner_of ticket db update_type comment queue.
    unfold email_notifications.notify_case_updated, email_notifications.user_with_id,
      pbind, lift.
    now rewrite He.
  - intros owner_of ticket db queue.
    unfold email_notifications.notify_case_closed, email_notifications.user_with_id,
      pbind, lift.
    now rewrite He.
Qed.

End StoreReaders.

(** ** The intent classifier (ml_classifier.py) *)

Section FloatOrder.

Lemma SFltb_trans (a b c : spec_float) :
  SFltb a b = true -> SFltb b c = true -> SFltb a c = true.
Proof.
  unfold SFltb, SFcompare.
  destruct a as [sa|sa| |sa ma ea], b as [sb|sb| |sb mb eb], c as [sc|sc| |sc mc ec];
    try discriminate; try reflexivity;
    repeat match goal with s : bool |- _ => destruct s end;
    try discriminate; try reflexivity; intros H1 H2.
  all: destruct (Z.compare_spec ea eb); try discriminate;
       destruct (Z.compare_spec eb ec); try discriminate;
       destruct (Z.compare_spec ea ec); try lia; try reflexivity; subst;
       repeat match goal with
       | H : context [Pos.compare_cont Eq ?x ?y] |- _ =>
           change (Pos.compare_cont Eq x y) with (Pos.compare x y) in H
       | |- context [Pos.compare_cont Eq ?x ?y] =>
           change (Pos.compare_cont Eq x y) with (Pos.compare x y)
       end;
       destruct (Pos.compare_spec ma mb); try discriminate;
       destruct (Pos.compare_spec mb mc); try discriminate;
       destruct (Pos.compare_spec ma mc); try lia; try reflexivity; try discriminate.
Qed.

Lemma SFltb_irrefl (a : spec_float) : SFltb a a = false.
Proof.
  unfold SFltb, SFcompare.
  destruct a as [[]|[]| |[] m e]; try reflexivity;
    rewrite Z.compare_refl;
    change (Pos.compare_cont Eq m m) with (Pos.compare m m);
    now rewrite Pos.compare_refl.
Qed.

(** [>] on floats is transitive and irreflexive (a NaN compares false
    with everything). *)
Lemma gt_trans (a b c : float) :
  Py.gt a b = true -> Py.gt b c = true -> Py.gt a c = true.
Proof.
  unfold Py.gt. rewrite !ltb_spec. intros H1 H2. exact (SFltb_trans _ _ _ H2 H1).
Qed.

Lemma gt_irrefl (a : float) : Py.gt a a = false.
Proof. unfold Py.gt. rewrite ltb_spec. apply SFltb_irrefl. Qed.

End FloatOrder.

Section MaxByValue.

Context {K : Type}.

Lemma max_from_in (items : list (K * float)) :
  forall best, In (Py.max_from best items) (best :: items).
Proof.
  induction items as [|item rest IH]; intros best; cbn [Py.max_from].
  - now left.
  - destruct (IH (if Py.gt (snd item) (snd best) then item else best)) as [H|H].
    + destruct (Py.gt (snd item) (snd best)); rewrite <- H; cbn; auto.
    + right. now right.
Qed.

Lemma max_from_not_exceeded (items : list (K * float)) :
  forall best seen,
    (forall x, In x seen -> Py.gt (snd x) (snd best) = false) ->
    forall x, In x (seen ++ items) ->
              Py.gt (snd x) (snd (Py.max_from best items)) = false.
Proof.
  induction items as [|item rest IH]; intros best seen Hseen x Hx; cbn [Py.max_from].
  - rewrite app_nil_r in Hx. now apply Hseen.
  - apply (IH _ (seen ++ [item])%list).
    + intros y Hy. apply in_app_or in Hy.
      destruct (Py.gt (snd item) (snd best)) eqn:Hgt.
      * destruct Hy as [Hy|[<-|[]]]; [|apply gt_irrefl].
        destruct (Py.gt (snd y) (snd item)) eqn:Hyi; [|reflexivity].
        rewrite <- (Hseen y Hy). symmetry. exact (gt_trans _ _ _ Hyi Hgt).
      * destruct Hy as [Hy|[<-|[]]]; [now apply Hseen|exact Hgt].
    + now rewrite <- app_assoc.
Qed.

(** The item [max] picks is one of the items, and no item has a larger
    value. *)
Lemma max_by_value_spec (items : list (K * float)) (best : K * float) :
  Py.max_by_value items = Ok best ->
  In best items /\ forall x, In x items -> Py.gt (snd x) (snd best) = false.
Proof.
  destruct items as [|item rest]; cbn [Py.max_by_value]; intros H; [discriminate H|].
  injection H as <-. split; [apply max_from_in|].
  intros x Hx. apply (max_from_not_exceeded rest item [item]).
  - intros y [<-|[]]. apply gt_irrefl.
  - exact Hx.
Qed.

End MaxByValue.

Section DictFacts.

Context {V : Type}.

Lemma keys_setitem (d : Py.dict V) (k : string) (v : V) :
  Py.keys (Py.setitem d k v)
  = if Py.contains d k then Py.keys d else (Py.keys d ++ [k])%list.
Proof.
  unfold Py.contains, Py.keys.
  induction d as [|[k' v'] d IH]; cbn [Py.setitem Py.get map fst app]; [reflexivity|].
  destruct (String.eqb k' k); cbn [map fst]; [reflexivity|].
  rewrite IH. now destruct (Py.get d k).
Qed.

Lemma contains_keys (d : Py.dict V) (k : string) :
  Py.contains d k = true <-> In k (Py.keys d).
Proof.
  unfold Py.contains, Py.keys.
  induction d as [|[k' v'] d IH]; cbn [Py.get map fst In]; [split; [discriminate|tauto]|].
  destruct (String.eqb_spec k' k) as [->|Hne]; [tauto|].
  rewrite IH. split; [tauto|]. intros [H|H]; [contradiction|assumption].
Qed.

Lemma setitem_NoDup (d : Py.dict V) (k : string) (v : V) :
  NoDup (Py.keys d) -> NoDup (Py.keys (Py.setitem d k v)).
Proof.
  intros Hnd. rewrite keys_setitem.
  destruct (Py.contains d k) eqn:Hc; [assumption|].
  apply NoDup_app; [assumption|repeat constructor; intros []|].
  intros x Hx [<-|[]]. apply contains_keys in Hx. congruence.
Qed.

Lemma dict_of_keys (pairs : list (string * V)) :
  forall d, NoDup (Py.keys d) ->
    NoDup (Py.keys (fold_left (fun d kv => Py.setitem d (fst kv) (snd kv)) pairs d))
    /\ (forall k,
           In k (Py.keys (fold_left (fun d kv => Py.setitem d (fst kv) (snd kv)) pairs d)) ->
           In k (Py.keys d) \/ In k (map fst pairs)).
Proof.
  induction pairs as [|[k v] pairs IH]; intros d Hnd; cbn [fold_left fst snd map].
  - split; [assumption|]. intros k Hk. now left.
  - destruct (IH (Py.setitem d k v) (setitem_NoDup d k v Hnd)) as [Hnd' Hin].
    split; [assumption|]. intros k0 Hk0.
    destruct (Hin k0 Hk0) as [H|H]; [|right; now right].
    rewrite keys_setitem in H. destruct (Py.contains d k); [now left|].
    apply in_app_or in H. destruct H as [H|[<-|[]]]; [now left|right; now left].
Qed.

Lemma get_of_in (d : Py.dict V) (k : string) (v : V) :
  NoDup (Py.keys d) -> In (k, v) d -> Py.get d k = Some v.
Proof.
  unfold Py.keys. induction d as [|[k' v'] d IH]; cbn [map fst Py.get In];
    intros Hnd Hin; [contradiction|].
  inversion Hnd as [|? ? Hnotin Hnd']; subst.
  destruct Hin as [H|Hin].
  - injection H as -> ->. now rewrite String.eqb_refl.
  - destruct (String.eqb_spec k' k) as [->|_]; [|now apply IH].
    exfalso. apply Hnotin. change k with (fst (k, v)). now apply in_map.
Qed.

Lemma get_in (d : Py.dict V) (k : string) (v : V) :
  Py.get d k = Some v -> In (k, v) d.
Proof.
  induction d as [|[k' v'] d IH]; cbn [Py.get In]; [discriminate|].
  destruct (String.eqb_spec k' k) as [->|_].
  - intros H. injection H as ->. now left.
  - intros H. right. now apply IH.
Qed.

End DictFacts.

Section IntentClassifierFacts.
Import ml_classifier.

Variable Model : Type.
Variable train_test_split :
  list string -> list string ->
  result (list string * list string * list string * list string).
Variable fit : list string -> list string -> result Model.
Variable score : Model -> list string -> list string -> result float.
Variable dump : Model -> string -> result unit.
Variable predict_proba : Model -> string -> result (list float).
Variable classes_ : Model -> list string.
Variable NotFittedError : exception.

Local Notation train := (ml_classifier.train Model train_test_split fit score dump).
Local Notation load_model :=
  (ml_classifier.load_model Model train_test_split fit score dump).
Local Notation predict :=
  (ml_classifier.predict Model train_test_split fit score dump predict_proba classes_
     NotFittedError).
Local Notation update_training_data :=
  (ml_classifier.update_training_data Model train_test_split fit score dump).

Lemma prepare_labelled (items : Py.dict (list string)) :
  forall texts labels,
    prepare items texts labels
    = ((texts ++ map fst (labelled_examples items))%list,
       (labels ++ map snd (labelled_examples items))%list).
Proof.
  induction items as [|[category examples] items IH]; intros texts labels;
    cbn [prepare labelled_examples flat_map fst snd].
  - now rewrite !app_nil_r.
  - rewrite IH. fold (labelled_examples items). rewrite !map_app, !map_map.
    cbn [fst snd]. rewrite map_id, <- !app_assoc. do 3 f_equal.
    induction examples as [|x examples IHx]; cbn; [reflexivity|]. now rewrite IHx.
Qed.

(** X14.  [prepare_training_data] keeps texts and labels aligned: the two
    lists have the same length, and pairing them position by position
    gives every example with the category it is filed under, in the order
    of [training_data]; no example is lost, repeated or labelled with
    another category. *)
Theorem prepare_training_data_aligned (c : EmailIntentClassifier Model) :
  length (fst (prepare_training_data c)) = length (snd (prepare_training_data c))
  /\ combine (fst (prepare_training_data c)) (snd (prepare_training_data c))
     = labelled_examples (training_data c)
  /\ length (fst (prepare_training_data c))
     = list_sum (map (fun item => length (snd item)) (training_data c)).
Proof.
  unfold prepare_training_data. rewrite prepare_labelled. cbn [fst snd app].
  split; [now rewrite !length_map|]. split.
  - induction (labelled_examples (training_data c)) as [|[x y] l IH]; cbn;
      [reflexivity|now rewrite IH].
  - rewrite length_map. unfold labelled_examples.
    induction (training_data c) as [|[k examples] d IH]; cbn [flat_map map list_sum];
      [reflexivity|].
    rewrite length_app, length_map, IH. reflexivity.
Qed.

Lemma train_frame (w : world Model) :
  training_data (self (snd (train w))) = training_data (self w)
  /\ categories (self (snd (train w))) = categories (self w).
Proof.
  unfold ml_classifier.train, try_except, train_body, raise.
  destruct (prepare_training_data (self w)) as [texts labels].
  destruct (train_test_split texts labels) as [[[[X_train X_val] y_train] y_val]|e];
    [|now split].
  destruct (fit X_train y_train) as [m|e]; [|now split].
  destruct (score m X_val y_val) as [accuracy|e]; [|now split].
  destruct (dump m (model_path (self w))) as [[]|e]; now split.
Qed.

Lemma append_at_spec (d : Py.dict (list string)) (k x : string) (examples : list string) :
  Py.get d k = Some examples ->
  exists d',
    append_at d k x = Ok d'
    /\ Py.keys d' = Py.keys d
    /\ Py.get d' k = Some (examples ++ [x])%list
    /\ (forall k0, k0 <> k -> Py.get d' k0 = Py.get d k0)
    /\ Permutation (labelled_examples d') ((x, k) :: labelled_examples d).
Proof.
  unfold Py.keys, labelled_examples.
  induction d as [|[k' ex'] d IH]; cbn [Py.get append_at]; [discriminate|].
  destruct (String.eqb_spec k' k) as [->|Hne].
  - intros H. injection H as ->. eexists. split; [reflexivity|].
    cbn [map fst Py.get flat_map snd]. rewrite String.eqb_refl.
    split; [reflexivity|]. split; [reflexivity|]. split.
    + intros k0 Hk0. apply not_eq_sym, String.eqb_neq in Hk0. now rewrite Hk0.
    + rewrite map_app, <- app_assoc. cbn [map app].
      symmetry. apply Permutation_middle.
  - intros H. destruct (IH H) as (d' & -> & Hkeys & Hget & Hother & Hperm).
    eexists. split; [reflexivity|]. cbn [map fst Py.get flat_map snd].
    apply String.eqb_neq in Hne. rewrite Hne, Hkeys.
    split; [reflexivity|]. split; [assumption|]. split.
    + intros k0 Hk0. destruct (String.eqb k' k0); [reflexivity|now apply Hother].
    + rewrite Hperm. symmetry. apply Permutation_middle.
Qed.

(** X15.  [update_training_data] with a category the classifier does not
    accept changes nothing and trains nothing.  With an accepted category
    the example is filed under that category -- the labelled examples are
    the old ones and the new pair -- and stays filed whether or not the
    training that follows succeeds; categories keep their lists, so the
    lookup of the category never fails. *)
Theorem update_training_data_effect (text category : string) (w : world Model) :
  (Py.in_list category (categories (self w)) = false ->
     update_training_data text category w = (Ok tt, w))
  /\ (Py.in_list category (categories (self w)) = true ->
      categories_have_examples (self w) ->
      exists data,
        append_at (training_data (self w)) category text = Ok data
        /\ training_data (self (snd (update_training_data text category w))) = data
        /\ categories (self (snd (update_training_data text category w)))
           = categories (self w)
        /\ Permutation (labelled_examples data)
             ((text, category) :: labelled_examples (training_data (self w)))
        /\ categories_have_examples (self (snd (update_training_data text category w)))).
Proof.
  unfold ml_classifier.update_training_data, try_except. split.
  - intros ->. reflexivity.
  - intros Hin Hinv. rewrite Hin.
    assert (Hcat : In category (categories (self w))).
    { unfold Py.in_list in Hin. apply existsb_exists in Hin.
      destruct Hin as (c & Hc & Heq). apply String.eqb_eq in Heq. now subst. }
    pose proof (Hinv category Hcat) as Hhas. unfold Py.contains in Hhas.
    destruct (Py.get (training_data (self w)) category) as [examples|] eqn:Hget;
      [|discriminate Hhas].
    destruct (append_at_spec _ category text examples Hget)
      as (data & Happ & Hkeys & _ & _ & Hperm).
    exists data. rewrite Happ. split; [reflexivity|].
    match goal with
    | |- context [train ?w0] =>
        destruct (train_frame w0) as [Hdata Hcats];
        destruct (train w0) as [[u|e] w1]; cbn [snd raise] in *;
        rewrite Hdata, Hcats
    end;
    cbn [self training_data categories];
    (split; [reflexivity|]); (split; [reflexivity|]); (split; [exact Hperm|]);
    intros c Hc; unfold categories_have_examples in Hinv;
    rewrite Hcats in Hc; cbn [self categories] in Hc;
    rewrite Hdata; cbn [self training_data];
    apply contains_keys; rewrite Hkeys; apply contains_keys; now apply Hinv.
Qed.

(** X16.  When [predict] returns, the model is a fitted one, the
    category it names is one of the model's classes, the confidence is the
    probability listed for that category, and no class is listed with a
    larger probability. *)
Theorem predict_most_probable (text : string) (w w' : world Model) (r : Prediction) :
  predict text w = (Ok r, w') ->
  exists m probas,
    model (self w') = Fitted m
    /\ predict_proba m text = Ok probas
    /\ In (category r) (classes_ m)
    /\ Py.get (probabilities r) (category r) = Some (confidence r)
    /\ (forall c p, Py.get (probabilities r) c = Some p ->
                    In c (classes_ m) /\ Py.gt p (confidence r) = false).
Proof.
  unfold ml_classifier.predict, try_except, predict_body, pbind, raise.
  match goal with
  | |- context [match model (self w) with
                | NoModel => ?a | Unfitted => ?b | Fitted m => @?c m end] =>
      destruct (match model (self w) with
                | NoModel => a | Unfitted => b | Fitted m => c m end)
        as [[u|e] w1]; [|discriminate]
  end.
  destruct (model (self w1)) as [| |m] eqn:Hm; try discriminate.
  destruct (predict_proba m text) as [probas|e] eqn:Hp; [|discriminate].
  cbn [bind].
  destruct (Py.max_by_value (Py.dict_of (combine (classes_ m) probas)))
    as [best|e] eqn:Hmax; [|discriminate].
  cbn [bind]. intros H. injection H as <- <-.
  cbn [category confidence probabilities].
  destruct (max_by_value_spec _ _ Hmax) as [Hin Hbest].
  destruct (dict_of_keys (combine (classes_ m) probas) [] (NoDup_nil _)) as [Hnd Hkeys].
  fold (Py.dict_of (combine (classes_ m) probas)) in Hnd, Hkeys.
  assert (Hclass : forall c, In c (Py.keys (Py.dict_of (combine (classes_ m) probas))) ->
                             In c (classes_ m)).
  { intros c Hc. destruct (Hkeys c Hc) as [[]|Hc'].
    apply in_map_iff in Hc'. destruct Hc' as ([c0 p0] & <- & Hc0).
    now apply in_combine_l in Hc0. }
  exists m, probas. split; [exact Hm|]. split; [exact Hp|]. split.
  - apply Hclass. unfold Py.keys. now apply in_map.
  - split.
    + destruct best as [c p]. now apply get_of_in.
    + intros c p Hget. apply get_in in Hget. split.
      * apply Hclass. unfold Py.keys. change c with (fst (c, p)). now apply in_map.
      * exact (Hbest (c, p) Hget).
Qed.

End IntentClassifierFacts.

(** ** The body of a fetched message (email_scanner.py) *)

Section EmailBody.
Import email_scanner.

Lemma append_empty_r (s : string) : s ++ "" = s.
Proof. induction s as [|c s IH]; cbn; [reflexivity|now rewrite IH]. Qed.

Lemma append_assoc (a b c : string) : (a ++ b) ++ c = a ++ (b ++ c).
Proof. induction a as [|x a IH]; cbn; [reflexivity|now rewrite IH]. Qed.

Lemma concat_cons (x : string) (l : list string) :
  String.concat "" (x :: l) = x ++ String.concat "" l.
Proof. destruct l; cbn; [now rewrite append_empty_r|reflexivity]. Qed.

Lemma Part_induction (P : Part -> Prop) :
  (forall content_type decoded payload, P (Leaf content_type decoded payload)) ->
  (forall content_type parts, Forall P parts -> P (Multipart content_type parts)) ->
  forall part, P part.
Proof.
  intros Hleaf Hmulti. fix IH 1. intros [content_type decoded payload|content_type parts].
  - apply Hleaf.
  - apply Hmulti. induction parts as [|part parts IHparts]; constructor.
    + apply IH.
    + exact IHparts.
Qed.

Lemma read_parts_app (l1 l2 : list Part) :
  forall body,
    read_parts (l1 ++ l2) body = (body' <- read_parts l1 body ;; read_parts l2 body').
Proof.
  induction l1 as [|part l1 IH]; intros body; cbn [app read_parts bind]; [reflexivity|].
  destruct (String.eqb (get_content_type part) "text/plain"); [|apply IH].
  destruct (add_part_text body part) as [body'|e]; cbn [bind]; [apply IH|reflexivity].
Qed.

Lemma read_parts_walk (part : Part) :
  containers_are_multipart part = true ->
  forall body, read_parts (walk part) body = Ok (body ++ plain_text part).
Proof.
  induction part as [content_type decoded payload|content_type parts IH]
    using Part_induction; intros Hwf body.
  - cbn [walk read_parts get_content_type plain_text].
    destruct decoded as [text|e]; destruct (String.eqb content_type "text/plain");
      cbn; now rewrite ?append_empty_r.
  - cbn [containers_are_multipart] in Hwf. apply andb_true_iff in Hwf.
    destruct Hwf as [Hct Hparts]. apply negb_true_iff in Hct.
    cbn [walk read_parts get_content_type plain_text]. rewrite Hct.
    revert body. induction parts as [|part parts IHparts]; intros body.
    + cbn. now rewrite append_empty_r.
    + cbn [forallb] in Hparts. apply andb_true_iff in Hparts.
      destruct Hparts as [Hpart Hrest].
      inversion IH as [|? ? IHpart IHrest]; subst.
      cbn [flat_map map]. rewrite read_parts_app, (IHpart Hpart). cbn [bind].
      rewrite (IHparts IHrest Hrest), concat_cons, append_assoc. reflexivity.
Qed.

(** X17.  [get_email_body] of a message that is not multipart returns its
    text whatever its content type, decoded when the decoding works and as
    it stands otherwise.  Of a multipart message in which no container is
    labelled [text/plain] it returns the texts of the [text/plain] parts,
    joined in document order: parts of other types (HTML, attachments)
    add nothing, and no part makes it fail. *)
Theorem get_email_body_plain_parts (email_message : Part) :
  containers_are_multipart email_message = true ->
  match email_message with
  | Leaf _ (Ok text) _ => get_email_body email_message = Ok text
  | Leaf _ (Raise _) payload => get_email_body email_message = Ok payload
  | Multipart _ _ => get_email_body email_message = Ok (plain_text email_message)
  end.
Proof.
  intros Hwf. destruct email_message as [content_type [text|e] payload|content_type parts];
    try reflexivity.
  unfold get_email_body. now rewrite (read_parts_walk _ Hwf).
Qed.

End EmailBody.

(** ** Synchronisation with Qube (qube_integration.py) *)

Section SyncFacts.
Import models qube_integration.

Variable QUBE_API_URL : string.
Variable QUBE_CLIENT_ID : option string.
Variable QUBE_CLIENT_SECRET : option string.
Variable httpx : http_request -> result json.
Variable format_json : json -> string.
Variable isoformat : datetime -> string.
Variable Ticket_has_qube_case_id : bool.
Variable commit_time : string -> datetime.

Local Notation sync_ticket_to_qube :=
  (qube_integration.sync_ticket_to_qube QUBE_API_URL QUBE_CLIENT_ID QUBE_CLIENT_SECRET
     httpx format_json isoformat Ticket_has_qube_case_id commit_time).
Local Notation remote_sync :=
  (qube_integration.remote_sync QUBE_API_URL QUBE_CLIENT_ID QUBE_CLIENT_SECRET
     httpx format_json isoformat Ticket_has_qube_case_id).
Local Notation get_qube_token :=
  (qube_integration.get_qube_token QUBE_API_URL QUBE_CLIENT_ID QUBE_CLIENT_SECRET httpx).
Local Notation written := (qube_integration.written commit_time).

(** [sync_ticket_to_qube] asks Qube first and writes afterwards. *)
Lemma sync_ticket_to_qube_remote (ticket : Ticket) (db : database) :
  sync_ticket_to_qube ticket db
  = match remote_sync ticket with
    | Ok (case_id, row) =>
        (Ok case_id, snd (commit_ticket (commit_time (Ticket_id row)) row db))
    | Raise e => (Raise (sync_error e), db)
    end.
Proof.
  unfold qube_integration.sync_ticket_to_qube, qube_integration.sync_ticket_to_qube_body,
    qube_integration.remote_sync, try_except, pbind, lift, ret, raise, sync_error.
  destruct get_qube_token as [token|e]; cbn [bind]; [|reflexivity].
  destruct (httpx _) as [response|e]; cbn [bind]; [|reflexivity].
  destruct (json_getitem response "case_id") as [case_id|e]; cbn [bind]; [|reflexivity].
  destruct Ticket_has_qube_case_id; [|reflexivity].
  destruct (as_text case_id) as [text|e]; reflexivity.
Qed.

Lemma Ticket_eqb_fields (a b : Ticket) :
  Ticket_eqb a b = true ->
  Ticket_status a = Ticket_status b
  /\ Ticket_priority a = Ticket_priority b
  /\ Ticket_qube_case_id a = Ticket_qube_case_id b.
Proof.
  unfold Ticket_eqb. rewrite !andb_true_iff.
  intros ((((((((((_ & _) & _) & _) & Hp) & Hs) & _) & _) & _) & _) & Hq).
  apply String.eqb_eq in Hp.
  assert (Hopt : forall x y, option_string_eqb x y = true -> x = y).
  { intros [x|] [y|]; cbn; try discriminate; try reflexivity.
    intros H. apply String.eqb_eq in H. now subst. }
  repeat split; auto.
Qed.

Lemma written_fields (row r : Ticket) :
  Ticket_id (written row r) = Ticket_id r
  /\ (Ticket_id r = Ticket_id row ->
      Ticket_status (written row r) = Ticket_status row
      /\ Ticket_priority (written row r) = Ticket_priority row
      /\ Ticket_qube_case_id (written row r) = Ticket_qube_case_id row)
  /\ (Ticket_id r <> Ticket_id row -> written row r = r).
Proof.
  unfold qube_integration.written.
  destruct (String.eqb_spec (Ticket_id r) (Ticket_id row)) as [E|Hne].
  - destruct (Ticket_eqb r row) eqn:Heq.
    + split; [reflexivity|]. split; [|contradiction].
      intros _. now apply Ticket_eqb_fields.
    + cbn. split; [now rewrite E|]. split; [|contradiction]. now intros _.
  - split; [reflexivity|]. split; [contradiction|reflexivity].
Qed.

Lemma commit_ticket_written (row : Ticket) (db : database) :
  snd (commit_ticket (commit_time (Ticket_id row)) row db)
  = mkDatabase (users db) (properties db) (maintenance_tickets db)
      (map (written row) (tickets db)).
Proof. reflexivity. Qed.

Lemma remote_sync_row (ticket : Ticket) (case_id : json) (row : Ticket) :
  remote_sync ticket = Ok (case_id, row) ->
  Ticket_id row = Ticket_id ticket
  /\ Ticket_status row = Ticket_status ticket
  /\ Ticket_priority row = Ticket_priority ticket
  /\ (Ticket_has_qube_case_id = true -> as_text case_id = Ok (Ticket_qube_case_id row)).
Proof.
  unfold qube_integration.remote_sync.
  destruct get_qube_token as [token|e]; cbn [bind]; [|discriminate].
  destruct (httpx _) as [response|e]; cbn [bind]; [|discriminate].
  destruct (json_getitem response "case_id") as [cid|e]; cbn [bind]; [|discriminate].
  destruct Ticket_has_qube_case_id.
  - destruct (as_text cid) as [text|e] eqn:Ht; cbn [bind]; [|discriminate].
    intros H. injection H as <- <-. cbn. repeat split. intros _. exact Ht.
  - intros H. injection H as <- <-. repeat split. discriminate.
Qed.

(** X18.  [sync_ticket_to_qube] is all or nothing for the store: when it
    raises -- always HTTP 500 -- the store is as it was; when it returns
    the case id, other tables are untouched, no ticket is added or
    removed, every ticket of another id is as it was, and, where the
    column exists, the row of the ticket carries the case id Qube
    returned. *)
Theorem sync_all_or_nothing (ticket : Ticket) (db : database) :
  match sync_ticket_to_qube ticket db with
  | (Raise e', db') => db' = db /\ exists e, e' = sync_error e
  | (Ok case_id, db') =>
      users db' = users db
      /\ properties db' = properties db
      /\ maintenance_tickets db' = maintenance_tickets db
      /\ map Ticket_id (tickets db') = map Ticket_id (tickets db)
      /\ Forall2 (fun r r' => Ticket_id r <> Ticket_id ticket -> r' = r)
           (tickets db) (tickets db')
      /\ (Ticket_has_qube_case_id = true ->
          forall r', In r' (tickets db') -> Ticket_id r' = Ticket_id ticket ->
                     as_text case_id = Ok (Ticket_qube_case_id r'))
  end.
Proof.
  rewrite sync_ticket_to_qube_remote.
  destruct (remote_sync ticket) as [[case_id row]|e] eqn:Hremote.
  - destruct (remote_sync_row _ _ _ Hremote) as (Hid & _ & _ & Hcase).
    rewrite commit_ticket_written. cbn [users properties maintenance_tickets tickets].
    repeat split.
    + rewrite map_map. apply map_ext. intros r. apply written_fields.
    + induction (tickets db) as [|r rows IH]; cbn [map]; constructor; [|exact IH].
      intros Hne. apply written_fields. congruence.
    + intros Hcol r' Hin Hr'. apply in_map_iff in Hin. destruct Hin as (r & <- & _).
      destruct (written_fields row r) as (Hwid & Hsame & _).
      rewrite Hwid in Hr'. rewrite <- Hid in Hr'.
      destruct (Hsame Hr') as (_ & _ & ->). now apply Hcase.
  - split; [reflexivity|]. now exists e.
Qed.

End SyncFacts.

Section FailedTraining.
Import ml_classifier.

Variable Model : Type.
Variable train_test_split :
  list string -> list string ->
  result (list string * list string * list string * list string).
Variable fit : list string -> list string -> result Model.
Variable score : Model -> list string -> list string -> result float.
Variable dump : Model -> string -> result unit.
Variable predict_proba : Model -> string -> result (list float).
Variable classes_ : Model -> list string.
Variable NotFittedError : exception.

(** X21.  A training run whose [fit] fails leaves the classifier with a
    pipeline that was never fitted: [train] raises what [fit] raised, the
    model file is not written, and every later [predict] raises too -- it
    neither loads the model file nor trains again, because a model is
    set. *)
Theorem failed_fit_blocks_predict (w : world Model)
    (X_train X_val y_train y_val : list string) (e : exception) :
  train_test_split (fst (prepare_training_data (self w)))
    (snd (prepare_training_data (self w))) = Ok (X_train, X_val, y_train, y_val) ->
  fit X_train y_train = Raise e ->
  ml_classifier.train Model train_test_split fit score dump w
  = (Raise e, set_model Model Unfitted w)
  /\ disk (set_model Model Unfitted w) = disk w
  /\ (forall text,
         ml_classifier.predict Model train_test_split fit score dump predict_proba
           classes_ NotFittedError text (set_model Model Unfitted w)
         = (Raise NotFittedError, set_model Model Unfitted w)).
Proof.
  intros Hsplit Hfit. split; [|split; [reflexivity|intros text; reflexivity]].
  unfold ml_classifier.train, try_except, train_body, raise.
  destruct (prepare_training_data (self w)) as [texts labels]. cbn [fst snd] in Hsplit.
  now rewrite Hsplit, Hfit.
Qed.

End FailedTraining.

(** ** The column models.py does not declare *)


(** ** Worked instances of the further properties *)

Lemma handle_email_sends_witness :
  snd (email_handler.handle_email sample.complaint_llm sample.smtp_session sample.getenv
         sample.heating_request [])
  = [ email_handler.escalation_mail sample.getenv sample.heating_request
        (email_classifier.mkEmailCategory "complaint" 0.8%float "Customer Service" "high");
      email_handler.reply_mail sample.getenv sample.heating_request "complaint" ].
Proof.
  exact (proj1 (handle_email_sends sample.complaint_llm sample.smtp_session sample.getenv
                  sample.heating_request [] _
                  (email_handler.mkEmailResponse "complaint"
                     (email_classifier.mkEmailCategory "complaint" 0.8%float
                        "Customer Service" "high") true)
                  eq_refl)).
Defined.

(** The relay takes the reply and then drops the connection: the tenant
    has the reply, the department its message, and the caller a 500. *)
Example handle_email_fails_after_reply :
  email_handler.handle_email sample.complaint_llm sample.smtp_drops_after_tenant
    sample.getenv sample.heating_request []
  = (Raise (HTTPException 500
              "Error processing email: 500: Error sending email: (421, b'closing connection')"),
     [ email_handler.escalation_mail sample.getenv sample.heating_request
         (email_classifier.mkEmailCategory "complaint" 0.8%float "Customer Service"
            "high");
       email_handler.reply_mail sample.getenv sample.heating_request "complaint" ]).
Proof. reflexivity. Qed.

(** The relay refuses the reply: the department has its message, the
    tenant nothing. *)
Example handle_email_partial_failure :
  email_handler.handle_email sample.complaint_llm sample.smtp_refuses_tenant sample.getenv
    sample.heating_request []
  = (Raise (HTTPException 500
              "Error processing email: 500: Error sending email: relay refused"),
     [ email_handler.escalation_mail sample.getenv sample.heating_request
         (email_classifier.mkEmailCategory "complaint" 0.8%float "Customer Service"
            "high") ]).
Proof. reflexivity. Qed.

Lemma handle_email_failure_mail_witness :
  exists left,
    [ email_handler.escalation_mail sample.getenv sample.heating_request
        (email_classifier.mkEmailCategory "complaint" 0.8%float "Customer Service" "high");
      email_handler.reply_mail sample.getenv sample.heating_request "complaint" ]
    = ([] ++ left)%list
    /\ (left = []
        \/ exists c reply rest,
             email_classifier.classify_email sample.complaint_llm "The heating is broken"
             = Ok c
             /\ email_handler.generate_email_response sample.complaint_llm
                  "The heating is broken" c None = Ok reply
             /\ (left ++ rest)%list
                = ((if email_classifier.should_escalate c
                    then [email_handler.escalation_mail sample.getenv
                            sample.heating_request c]
                    else [])
                   ++ [email_handler.reply_mail sample.getenv sample.heating_request
                         reply])%list).
Proof.
  exact (handle_email_failure_mail sample.complaint_llm sample.smtp_drops_after_tenant
           sample.getenv sample.heating_request [] _
           (HTTPException 500
              "Error processing email: 500: Error sending email: (421, b'closing connection')")
           eq_refl).
Defined.

Lemma scanner_forwards_each_record_witness :
  exists mails,
    snd (email_scanner.process_unread_emails sample.getenv (Ok ["1"; "2"; "3"])
           sample.imap_fetch (Ok tt) sample.acreate sample.smtp_session
           sample.clock sample.clock [])
    = ([] ++ concat mails)%list
    /\ Forall2
         (fun num mail =>
            email_scanner.mail_of (email_scanner.department_routes sample.getenv)
              (email_scanner.message_outcome sample.getenv sample.imap_fetch
                 sample.acreate sample.smtp_session sample.clock sample.clock num)
              mail)
         ["1"; "2"; "3"] mails.
Proof.
  exact (scanner_forwards_each_record sample.getenv (Ok ["1"; "2"; "3"])
           sample.imap_fetch (Ok tt) sample.acreate sample.smtp_session
           sample.clock sample.clock ["1"; "2"; "3"] [] eq_refl).
Defined.

(** The session of the first forward raises after the server took it: the
    message is skipped, and its forward has left. *)
Example scan_skips_a_forwarded_message :
  let smtp := fun msg =>
    if String.eqb (smtplib.Subject msg) "[SERVICE_REQUEST] Subject 1"
    then smtplib.DeliveredThenRaised
           (PyException "SMTPResponseException" "(421, b'closing connection')")
    else smtplib.Delivered in
  map (fun entry => Py.get entry "id")
    (email_scanner.processed_without_error sample.getenv sample.imap_fetch sample.acreate
       smtp sample.clock sample.clock ["1"; "2"; "3"])
  = [Some "3"]
  /\ map smtplib.Subject
       (snd (email_scanner.process_unread_emails sample.getenv (Ok ["1"; "2"; "3"])
               sample.imap_fetch (Ok tt) sample.acreate smtp sample.clock sample.clock []))
     = ["[SERVICE_REQUEST] Subject 1"; "[SERVICE_REQUEST] Subject 3"].
Proof. split; reflexivity. Qed.

Lemma predict_most_probable_witness :
  exists m probas,
    ml_classifier.model (ml_classifier.self sample.fitted_classifier)
    = ml_classifier.Fitted m
    /\ sample.predict_proba m "My lease" = Ok probas
    /\ In "legal" (sample.classes_ m)
    /\ Py.get [("complaint", 0.2%float); ("legal", 0.7%float); ("praise", 0.1%float)]
         "legal" = Some 0.7%float
    /\ (forall c p,
           Py.get [("complaint", 0.2%float); ("legal", 0.7%float); ("praise", 0.1%float)]
             c = Some p ->
           In c (sample.classes_ m) /\ Py.gt p 0.7%float = false).
Proof.
  exact (predict_most_probable nat sample.train_test_split sample.fit sample.score
           sample.dump sample.predict_proba sample.classes_ sample.NotFittedError
           "My lease" sample.fitted_classifier sample.fitted_classifier
           (ml_classifier.mkPrediction "legal" 0.7%float
              [("complaint", 0.2%float); ("legal", 0.7%float); ("praise", 0.1%float)])
           eq_refl).
Defined.

Lemma get_email_body_plain_parts_witness :
  email_scanner.get_email_body sample.mixed_message = Ok "The tap leaks. Regards, Ann".
Proof.
  exact (get_email_body_plain_parts sample.mixed_message eq_refl).
Defined.

Example get_email_body_html_only :
  email_scanner.get_email_body
    (email_scanner.Leaf "text/html" (Ok "<p>Hello</p>") "<p>Hello</p>")
  = Ok "<p>Hello</p>".
Proof. reflexivity. Qed.

Lemma failed_fit_blocks_predict_witness :
  ml_classifier.predict nat sample.train_test_split sample.fit sample.score sample.dump
    sample.predict_proba sample.classes_ sample.NotFittedError "My lease"
    (snd (ml_classifier.update_training_data nat sample.train_test_split sample.fit
            sample.score sample.dump "The lift is stuck" "complaint"
            sample.fresh_classifier))
  = (Raise sample.NotFittedError,
     snd (ml_classifier.update_training_data nat sample.train_test_split sample.fit
            sample.score sample.dump "The lift is stuck" "complaint"
            sample.fresh_classifier)).
Proof.
  exact (proj2 (proj2
           (failed_fit_blocks_predict nat sample.train_test_split sample.fit sample.score
              sample.dump sample.predict_proba sample.classes_ sample.NotFittedError
              (ml_classifier.mkWorld
                 (ml_classifier.mkEmailIntentClassifier "models/email_classifier.joblib"
                    (ml_classifier.categories (@ml_classifier.init nat))
                    (ml_classifier.training_data
                       (ml_classifier.self
                          (snd (ml_classifier.update_training_data nat
                                  sample.train_test_split sample.fit sample.score
                                  sample.dump "The lift is stuck" "complaint"
                                  sample.fresh_classifier))))
                    ml_classifier.NoModel)
                 None)
              _ _ _ _ _ eq_refl eq_refl)) "My lease").
Defined.

Lemma init_categories_have_examples :
  ml_classifier.categories_have_examples (@ml_classifier.init nat).
Proof.
  intros category Hin. cbn in Hin.
  repeat (destruct Hin as [<-|Hin]; [reflexivity|]). contradiction.
Qed.

Lemma update_training_data_effect_witness :
  exists data,
    ml_classifier.append_at (ml_classifier.training_data (@ml_classifier.init nat))
      "praise" "Thanks a lot" = Ok data
    /\ ml_classifier.training_data
         (ml_classifier.self
            (snd (ml_classifier.update_training_data nat sample.train_test_split
                    sample.fit sample.score sample.dump "Thanks a lot" "praise"
                    sample.fresh_classifier))) = data
    /\ Permutation (ml_classifier.labelled_examples data)
         (("Thanks a lot", "praise")
          :: ml_classifier.labelled_examples
               (ml_classifier.training_data (@ml_classifier.init nat))).
Proof.
  destruct (proj2 (update_training_data_effect nat sample.train_test_split sample.fit
                     sample.score sample.dump "Thanks a lot" "praise"
                     sample.fresh_classifier) eq_refl init_categories_have_examples)
    as (data & Happ & Hdata & _ & Hperm & _).
  exists data. repeat split; assumption.
Defined.
